(** * Verification of the prompt-generator conversation engine

    Shallow embedding of [src/utils.py] (class [PromptGenerator]) and the
    properties of its template-application and conversation-state logic.

    Python values are embedded as follows.
    - [str] is [string]; the embedding covers ASCII text: [lower] folds
      [A-Z], [strip] removes the ASCII characters for which [str.isspace]
      holds, every other character is left alone.
    - a conversation element is either a rendered [str] or the two-key
      dict built for the "openai" template ([turn]).
    - the template store [self.model_templates] (the parsed JSON file) is a
      finite map from names to finite maps from keys to [str].
    - the attributes that [__init__] does not create are optional fields of
      the object record; reading a missing one raises [AttributeError].
    - a method is a state transformer returning either a value or the
      raised exception, together with the object as it is at that point. *)

From Stdlib Require Import ZArith Ascii String List Bool Lia.
From stdpp Require Import base option gmap strings list fin_maps.

Local Open Scope string_scope.

(* String concatenation unfolds on a constructor, as list concatenation does. *)
#[local] Arguments String.append !s1 s2 : simpl nomatch.

(** ** Python [str] primitives *)

Module PyStr.

(** [str.isspace] on one ASCII character: TAB, LF, VT, FF, CR, the four
    separators 0x1c-0x1f and the space. *)
Definition is_space (c : ascii) : bool :=
  let n := N_of_ascii c in
  ((9 <=? n)%N && (n <=? 13)%N) || ((28 <=? n)%N && (n <=? 32)%N).

Definition lower_char (c : ascii) : ascii :=
  let n := N_of_ascii c in
  if ((65 <=? n)%N && (n <=? 90)%N) then ascii_of_N (n + 32) else c.

(** [s.lower()] *)
Fixpoint lower (s : string) : string :=
  match s with
  | EmptyString => EmptyString
  | String c s' => String (lower_char c) (lower s')
  end.

(** [s.lstrip()] *)
Fixpoint lstrip (s : string) : string :=
  match s with
  | EmptyString => EmptyString
  | String c s' => if is_space c then lstrip s' else s
  end.

(** [s.rstrip()] *)
Fixpoint rstrip (s : string) : string :=
  match s with
  | EmptyString => EmptyString
  | String c s' =>
      match rstrip s' with
      | EmptyString => if is_space c then EmptyString else String c EmptyString
      | r => String c r
      end
  end.

(** [s.strip()] *)
Definition strip (s : string) : string := rstrip (lstrip s).

(** Truth value of a [str]: non-empty. *)
Definition truthy (s : string) : bool :=
  match s with EmptyString => false | _ => true end.

(** [s.startswith(p)] *)
Fixpoint starts_with (p s : string) : bool :=
  match p, s with
  | EmptyString, _ => true
  | String a p', String b s' => Ascii.eqb a b && starts_with p' s'
  | String _ _, EmptyString => false
  end.

(** Left-to-right scan of [s.replace(old, new)] for a non-empty [old]:
    [skip] counts the characters of a match still to be dropped. *)
Fixpoint replace_scan (old new : string) (skip : nat) (s : string) : string :=
  match s with
  | EmptyString => EmptyString
  | String c s' =>
      match skip with
      | S k => replace_scan old new k s'
      | O =>
          if starts_with old s
          then new ++ replace_scan old new (String.length old - 1) s'
          else String c (replace_scan old new 0 s')
      end
  end.

(** For an empty [old], Python puts [new] before every character and at
    the end. *)
Fixpoint interleave (new s : string) : string :=
  match s with
  | EmptyString => new
  | String c s' => new ++ String c (interleave new s')
  end.

(** [s.replace(old, new)] *)
Definition replace (s old new : string) : string :=
  match old with
  | EmptyString => interleave new s
  | _ => replace_scan old new 0 s
  end.

End PyStr.

(** ** Exceptions and results *)

Inductive exn : Type :=
| AttributeError (attr : string)
| ValueError (msg : string)
| KeyError (key : string)
| IndexError (msg : string)
| TypeError (msg : string)
| OutsideFragment (what : string).

Inductive result (A : Type) : Type :=
| Ok (a : A)
| Raise (e : exn).
Arguments Ok {A} a.
Arguments Raise {A} e.

Definition result_map {A B} (f : A -> B) (r : result A) : result B :=
  match r with Ok a => Ok (f a) | Raise e => Raise e end.

(** ** [str.format] with keyword arguments only

    The format-string scanner of Python, for replacement fields that are a
    plain keyword name.  Doubled braces are literal braces.  A field with a
    conversion, a format specification, an attribute or an index
    ([! : . \[] or a nested brace) is outside the embedded fragment and is
    reported as [OutsideFragment]; no property below draws a conclusion
    from that outcome.  Errors surface left to right, as the scanner meets
    them. *)

Module PyFormat.

Definition kwargs := list (string * string).

Fixpoint kw_get (kw : kwargs) (name : string) : option string :=
  match kw with
  | [] => None
  | (k, v) :: kw' => if String.eqb k name then Some v else kw_get kw' name
  end.

Definition is_digit (c : ascii) : bool :=
  let n := N_of_ascii c in (48 <=? n)%N && (n <=? 57)%N.

Fixpoint all_digits (s : string) : bool :=
  match s with
  | EmptyString => true
  | String c s' => is_digit c && all_digits s'
  end.

Definition special_in_field (c : ascii) : bool :=
  Ascii.eqb c "{" || Ascii.eqb c "!" || Ascii.eqb c ":" ||
  Ascii.eqb c "." || Ascii.eqb c "[".

(** Value of the field named [name]; no positional argument is ever
    passed, so an empty or numeric name is out of range.  A numeric name
    too long for a machine integer is rejected by Python before the
    lookup and is left outside the fragment. *)
Definition field_value (kw : kwargs) (name : string) : result string :=
  if all_digits name
  then if Nat.leb (String.length name) 18
       then Raise (IndexError "Replacement index out of range for positional args tuple")
       else Raise (OutsideFragment "replacement index")
  else match kw_get kw name with
       | Some v => Ok v
       | None => Raise (KeyError name)
       end.

(** [field = None]: scanning literal text; [field = Some acc]: inside a
    replacement field whose name read so far is [acc]. *)
Fixpoint scan (kw : kwargs) (field : option string) (s : string) : result string :=
  match field with
  | None =>
      match s with
      | EmptyString => Ok EmptyString
      | String c rest =>
          if Ascii.eqb c "{" then
            match rest with
            | EmptyString => Raise (ValueError "Single '{' encountered in format string")
            | String d rest' =>
                if Ascii.eqb d "{"
                then result_map (String "{") (scan kw None rest')
                else scan kw (Some EmptyString) rest
            end
          else if Ascii.eqb c "}" then
            match rest with
            | EmptyString => Raise (ValueError "Single '}' encountered in format string")
            | String d rest' =>
                if Ascii.eqb d "}"
                then result_map (String "}") (scan kw None rest')
                else Raise (ValueError "Single '}' encountered in format string")
            end
          else result_map (String c) (scan kw None rest)
      end
  | Some acc =>
      match s with
      | EmptyString => Raise (ValueError "expected '}' before end of string")
      | String c rest =>
          if Ascii.eqb c "}" then
            match field_value kw acc with
            | Ok v => result_map (String.append v) (scan kw None rest)
            | Raise e => Raise e
            end
          else if special_in_field c then Raise (OutsideFragment "replacement field")
          else scan kw (Some (acc ++ String c EmptyString)) rest
      end
  end.

(** [template.format] called with the keyword arguments [kw] *)
Definition format (template : string) (kw : kwargs) : result string :=
  scan kw None template.

End PyFormat.

(** ** The [PromptGenerator] object *)

(** An element of [self.conversation]: a rendered string, or the dict
    with keys "role" and "content" appended under the "openai" template. *)
Inductive turn : Type :=
| TStr (s : string)
| TDict (role content : string).

(** What [generate_prompt] returns: the joined string, or the list itself. *)
Inductive prompt : Type :=
| PromptStr (s : string)
| PromptList (l : list turn).

Record PromptGenerator : Type := mkPG {
  model_name : string;
  model_templates : gmap string (gmap string string);
  conversation : list turn;
  system_text : string;
  model_prompt_helper : option string;
  user_prompt_helper : option string;
  system_prompt_helper : option string;
  input_prompt_helper : option string;
  template_name : option string;
  is_llama_2 : option bool
}.

Definition set_conversation (v : list turn) (o : PromptGenerator) :=
  mkPG (model_name o) (model_templates o) v (system_text o)
       (model_prompt_helper o) (user_prompt_helper o) (system_prompt_helper o)
       (input_prompt_helper o) (template_name o) (is_llama_2 o).

Definition set_system_text (v : string) (o : PromptGenerator) :=
  mkPG (model_name o) (model_templates o) (conversation o) v
       (model_prompt_helper o) (user_prompt_helper o) (system_prompt_helper o)
       (input_prompt_helper o) (template_name o) (is_llama_2 o).

Definition set_model_prompt_helper (v : string) (o : PromptGenerator) :=
  mkPG (model_name o) (model_templates o) (conversation o) (system_text o)
       (Some v) (user_prompt_helper o) (system_prompt_helper o)
       (input_prompt_helper o) (template_name o) (is_llama_2 o).

Definition set_user_prompt_helper (v : string) (o : PromptGenerator) :=
  mkPG (model_name o) (model_templates o) (conversation o) (system_text o)
       (model_prompt_helper o) (Some v) (system_prompt_helper o)
       (input_prompt_helper o) (template_name o) (is_llama_2 o).

Definition set_system_prompt_helper (v : string) (o : PromptGenerator) :=
  mkPG (model_name o) (model_templates o) (conversation o) (system_text o)
       (model_prompt_helper o) (user_prompt_helper o) (Some v)
       (input_prompt_helper o) (template_name o) (is_llama_2 o).

Definition set_input_prompt_helper (v : string) (o : PromptGenerator) :=
  mkPG (model_name o) (model_templates o) (conversation o) (system_text o)
       (model_prompt_helper o) (user_prompt_helper o) (system_prompt_helper o)
       (Some v) (template_name o) (is_llama_2 o).

Definition set_template_name (v : string) (o : PromptGenerator) :=
  mkPG (model_name o) (model_templates o) (conversation o) (system_text o)
       (model_prompt_helper o) (user_prompt_helper o) (system_prompt_helper o)
       (input_prompt_helper o) (Some v) (is_llama_2 o).

Definition set_is_llama_2 (v : bool) (o : PromptGenerator) :=
  mkPG (model_name o) (model_templates o) (conversation o) (system_text o)
       (model_prompt_helper o) (user_prompt_helper o) (system_prompt_helper o)
       (input_prompt_helper o) (template_name o) (Some v).

(** ** Methods as state transformers that may raise *)

Definition M (A : Type) : Type := PromptGenerator -> result A * PromptGenerator.

Definition ret {A} (a : A) : M A := fun o => (Ok a, o).

Definition bind {A B} (m : M A) (k : A -> M B) : M B :=
  fun o =>
    match m o with
    | (Ok a, o') => k a o'
    | (Raise e, o') => (Raise e, o')
    end.

Definition raise {A} (e : exn) : M A := fun o => (Raise e, o).

(** [self.f], for an attribute that always exists. *)
Definition read {A} (f : PromptGenerator -> A) : M A := fun o => (Ok (f o), o).

(** [self.f], for an attribute that may not have been created yet. *)
Definition attr {A} (name : string) (f : PromptGenerator -> option A) : M A :=
  fun o =>
    match f o with
    | Some v => (Ok v, o)
    | None => (Raise (AttributeError name), o)
    end.

(** [self.f = v] *)
Definition assign (upd : PromptGenerator -> PromptGenerator) : M unit :=
  fun o => (Ok tt, upd o).

(** An expression that may raise, evaluated inside a method. *)
Definition lift {A} (r : result A) : M A := fun o => (r, o).

Notation "x <~ m ;; k" := (bind m (fun x => k))
  (at level 100, m at next level, right associativity).
Notation "m ;;; k" := (bind m (fun _ => k))
  (at level 100, right associativity).

(** [d[key]] on an entry of the template store. *)
Definition item (d : gmap string string) (key : string) : result string :=
  match d !! key with
  | Some v => Ok v
  | None => Raise (KeyError key)
  end.

(** [self.conversation.append(x)], the argument already evaluated. *)
Definition append_turn (x : turn) : M unit :=
  assign (fun o => set_conversation (conversation o ++ [x]) o).

(** [__init__]; [templates] is what [json.load] read from the
    configuration file. *)
Definition init (name : string) (templates : gmap string (gmap string string))
  : PromptGenerator :=
  mkPG name templates [] "" None None None None None None.

(** [__len__] *)
Definition len : M nat := read (fun o => length (conversation o)).

(** [load_template] *)
Definition load_template (template : string) : M unit :=
  let template := PyStr.lower template in
  templates <~ read model_templates ;;
  match templates !! template with
  | Some entry =>
      r <~ lift (item entry "response") ;; assign (set_model_prompt_helper r) ;;;
      u <~ lift (item entry "user") ;; assign (set_user_prompt_helper u) ;;;
      s <~ lift (item entry "system") ;; assign (set_system_prompt_helper s) ;;;
      i <~ lift (item entry "input") ;; assign (set_input_prompt_helper i) ;;;
      assign (set_template_name template) ;;;
      name <~ attr "template_name" template_name ;;
      if String.eqb name "llama-2-chat"
      then assign (set_is_llama_2 true)
      else assign (set_is_llama_2 false)
  | None => raise (ValueError "Template not found.")
  end.

(** [custom_template] *)
Definition custom_template
  (system_template response_template user_template input_template : string)
  : M unit :=
  assign (set_model_prompt_helper response_template) ;;;
  assign (set_user_prompt_helper user_template) ;;;
  assign (set_system_prompt_helper system_template) ;;;
  assign (set_input_prompt_helper input_template).

(** [set_system_prompt] *)
Definition set_system_prompt (text : string) : M unit :=
  assign (set_conversation []) ;;;
  assign (set_system_text text) ;;;
  name <~ attr "template_name" template_name ;;
  if String.eqb name "openai" then
    h <~ attr "system_prompt_helper" system_prompt_helper ;;
    st <~ read system_text ;;
    append_turn (TDict h st)
  else
    h <~ attr "system_prompt_helper" system_prompt_helper ;;
    st <~ read system_text ;;
    r <~ lift (PyFormat.format h [("system", PyStr.strip st)]) ;;
    append_turn (TStr r).

(** [preprompt.strip() + text.strip()] *)
Definition combined (preprompt text : string) : string :=
  PyStr.strip preprompt ++ PyStr.strip text.

(** The guard at the top of [add_to_conversation]:
    [role != 'user' and input]. *)
Definition input_misused (role input : string) : bool :=
  negb (String.eqb role "user") && PyStr.truthy input.

(** [len(self.conversation) == 1 and self.is_llama_2]; the attribute is
    read only when the length test holds. *)
Definition first_llama_turn : M bool :=
  conv <~ read conversation ;;
  if Nat.eqb (length conv) 1 then attr "is_llama_2" is_llama_2 else ret false.

(** [add_to_conversation] *)
Definition add_to_conversation (role text preprompt input : string) : M unit :=
  if input_misused role input
  then raise (ValueError "Input parameter can only be used with user role")
  else
  if String.eqb (PyStr.lower role) "system" then
    set_system_prompt (combined preprompt text)
  else if String.eqb (PyStr.lower role) "user" then
    first <~ first_llama_turn ;;
    if first then
      h <~ attr "user_prompt_helper" user_prompt_helper ;;
      r <~ lift (PyFormat.format h [("prompt", combined preprompt text)]) ;;
      append_turn (TStr (PyStr.replace r " [INST]" ""))
    else
      name <~ attr "template_name" template_name ;;
      if String.eqb name "openai" then
        h <~ attr "user_prompt_helper" user_prompt_helper ;;
        append_turn (TDict h (combined preprompt text))
      else if PyStr.truthy input && String.eqb name "alpaca" then
        h <~ attr "input_prompt_helper" input_prompt_helper ;;
        r <~ lift (PyFormat.format h [("prompt", combined preprompt text)]) ;;
        append_turn (TStr r)
      else
        h <~ attr "user_prompt_helper" user_prompt_helper ;;
        r <~ lift (PyFormat.format h [("prompt", combined preprompt text);
                                      ("input", PyStr.strip input)]) ;;
        append_turn (TStr r)
  else if String.eqb (PyStr.lower role) "model" then
    name <~ attr "template_name" template_name ;;
    if String.eqb name "openai" then
      h <~ attr "model_prompt_helper" model_prompt_helper ;;
      append_turn (TDict h (combined preprompt text))
    else
      h <~ attr "model_prompt_helper" model_prompt_helper ;;
      r <~ lift (PyFormat.format h [("response", combined preprompt text)]) ;;
      append_turn (TStr r)
  else ret tt.

(** [clear_conversation]: [self.conversation\[:1\]] *)
Definition clear_conversation : M unit :=
  assign (fun o => set_conversation (take 1 (conversation o)) o).

(** [l\[start:\]] for a Python integer [start]: a negative start counts
    from the end and is clamped at the front; [-0] is [0]. *)
Definition slice_from {A} (start : Z) (l : list A) : list A :=
  let n := Z.of_nat (length l) in
  let s := if (start <? 0)%Z then Z.max (start + n) 0 else Z.min start n in
  drop (Z.to_nat s) l.

(** The list that [reduce_length] stores back. *)
Definition reduced (conv : Z) (l : list turn) : list turn :=
  let n := Z.of_nat (length l) in
  let couple := (conv * 2 - 1)%Z in
  let couple := if (n <? couple)%Z then (n - 1)%Z else couple in
  take 1 l ++ slice_from (- couple) l.

(** [reduce_length] *)
Definition reduce_length (conv : Z) : M unit :=
  assign (fun o => set_conversation (reduced conv (conversation o)) o).

(** [generate_one_shot_prompt] *)
Definition generate_one_shot_prompt
  (user_prompt preprompt system_prompt input : string) : M string :=
  (if PyStr.truthy system_prompt
   then assign (set_system_text (PyStr.strip system_prompt))
   else ret tt) ;;;
  name <~ read model_name ;;
  if String.eqb name "alpaca" && PyStr.truthy input then
    hs <~ attr "system_prompt_helper" system_prompt_helper ;;
    st <~ read system_text ;;
    a <~ lift (PyFormat.format hs [("system", PyStr.strip st)]) ;;
    hi <~ attr "input_prompt_helper" input_prompt_helper ;;
    b <~ lift (PyFormat.format hi [("prompt", combined preprompt user_prompt);
                                   ("input", PyStr.strip input)]) ;;
    ret (PyStr.strip (a ++ b))
  else
    hs <~ attr "system_prompt_helper" system_prompt_helper ;;
    st <~ read system_text ;;
    a <~ lift (PyFormat.format hs [("system", PyStr.strip st)]) ;;
    hu <~ attr "user_prompt_helper" user_prompt_helper ;;
    b <~ lift (PyFormat.format hu [("prompt", combined preprompt user_prompt)]) ;;
    ret (PyStr.strip (a ++ b)).

(** [sep.join(l)] with the empty separator: every item must be a [str]. *)
Fixpoint join (l : list turn) : result string :=
  match l with
  | [] => Ok EmptyString
  | TStr s :: l' => result_map (String.append s) (join l')
  | TDict _ _ :: _ =>
      Raise (TypeError "sequence item: expected str instance, dict found")
  end.

(** [generate_prompt] *)
Definition generate_prompt : M prompt :=
  name <~ attr "template_name" template_name ;;
  if String.eqb name "openai" then
    conv <~ read conversation ;; ret (PromptList conv)
  else
    conv <~ read conversation ;;
    s <~ lift (join conv) ;;
    ret (PromptStr (PyStr.strip s)).

(** ** Derived notions used in the statements *)

(** The instruction marker that the first llama-2 user turn drops. *)
Definition marker : string := " [INST]".

(** [s.replace(' [INST]', '')] *)
Definition remove_marker (s : string) : string := PyStr.replace s marker "".

(** The object after [self.conversation.append(x)]. *)
Definition appended (x : turn) (o : PromptGenerator) : PromptGenerator :=
  set_conversation (conversation o ++ [x]) o.

(** What an [append] of a rendered string does once the rendering has
    either produced the string or raised. *)
Definition append_rendered (r : result string) (f : string -> string)
  : M unit :=
  fun o =>
    match r with
    | Ok s => (Ok tt, appended (TStr (f s)) o)
    | Raise e => (Raise e, o)
    end.

(** The object as [load_template] leaves it when the store has the name
    and the entry has the four keys. *)
Definition bind_template (id r u s i : string) (o : PromptGenerator) : PromptGenerator :=
  mkPG (model_name o) (model_templates o) (conversation o) (system_text o)
       (Some r) (Some u) (Some s) (Some i)
       (Some id) (Some (String.eqb id "llama-2-chat")).

(** [template_name] and [is_llama_2] as [load_template] sets them
    together. *)
Definition bound_to (id : string) (o : PromptGenerator) : Prop :=
  template_name o = Some id /\
  is_llama_2 o = Some (String.eqb id "llama-2-chat").

(** A method leaves [template_name] and [is_llama_2] alone, whether it
    returns or raises. *)
Definition same_binding (o o' : PromptGenerator) : Prop :=
  template_name o' = template_name o /\ is_llama_2 o' = is_llama_2 o.

Definition keeps_binding {A} (m : M A) : Prop :=
  forall o, same_binding o (snd (m o)).

(** The test of the first user branch fails: the conversation does not
    have exactly one element, or the flag is off. *)
Definition not_first_llama (p : PromptGenerator) : Prop :=
  length (conversation p) <> 1 \/ is_llama_2 p = Some false.

(** Text without braces, which [format] copies as it is. *)
Fixpoint brace_free (s : string) : bool :=
  match s with
  | EmptyString => true
  | String c s' =>
      negb (Ascii.eqb c "{") && negb (Ascii.eqb c "}") && brace_free s'
  end.

(** The two renderings of [generate_one_shot_prompt]: the system
    sub-template [hs] on the stripped system text, then the sub-template
    [second] on the keywords [kw], joined and stripped. *)
Definition one_shot_with (second : string) (kw : PyFormat.kwargs)
           (hs st : string) : result string :=
  match PyFormat.format hs [("system", PyStr.strip st)] with
  | Ok a =>
      match PyFormat.format second kw with
      | Ok b => Ok (PyStr.strip (a ++ b))
      | Raise e => Raise e
      end
  | Raise e => Raise e
  end.

(** The last [w] elements of a list (none for [w <= 0], all of them for
    [w] beyond the length). *)
Definition last_n {A} (w : Z) (l : list A) : list A :=
  drop (length l - Z.to_nat w) l.

(** The reduction as the specification words it, to compare with
    [reduced]: the window is [keep*2 - 1], clamped to [len - 1] when
    [len - 1] is below it, and the result is the first element followed by
    the last [window] elements. *)
Definition reduced_as_specified (keep : Z) (l : list turn) : list turn :=
  let n := Z.of_nat (length l) in
  let window := (keep * 2 - 1)%Z in
  let window := if (n - 1 <? window)%Z then (n - 1)%Z else window in
  take 1 l ++ last_n window l.

(** ** Sample stores and objects

    The store is read from a JSON file when the generator is built; the
    general properties quantify over it.  The entries below are concrete
    inputs: "vicuna" as the docstring of [custom_template] spells it, and
    entries in the usual llama-2 chat and alpaca formats. *)

(** The line feed. *)
Definition LF : string := String "010"%char "".

Definition template_entry (s u r i : string) : gmap string string :=
  {[ "system" := s; "user" := u; "response" := r; "input" := i ]}.

Definition vicuna_system : string := "{system}" ++ LF.
Definition vicuna_user : string := "USER: {prompt}" ++ LF ++ "ASSISTANT:".
Definition vicuna_response : string := " {response}</s>".

Definition vicuna_store : gmap string (gmap string string) :=
  {[ "vicuna" := template_entry vicuna_system vicuna_user vicuna_response "" ]}.

Definition llama2_system : string :=
  "[INST] <<SYS>>" ++ LF ++ "{system}" ++ LF ++ "<</SYS>>" ++ LF ++ LF.
Definition llama2_user : string := " [INST] {prompt} [/INST]".
Definition llama2_response : string := " {response} </s><s>".

Definition llama2_store : gmap string (gmap string string) :=
  {[ "llama-2-chat" := template_entry llama2_system llama2_user llama2_response "" ]}.

(** A llama-2 conversation holding the system message only, and the same
    after one exchange. *)
Definition llama2_started : PromptGenerator :=
  snd ((load_template "llama-2-chat" ;;; set_system_prompt "Be brief.")
         (init "llama" llama2_store)).

Definition llama2_after_exchange : PromptGenerator :=
  snd ((add_to_conversation "user" "Hi" "" "" ;;;
        add_to_conversation "model" "Hello!" "" "") llama2_started).

Definition alpaca_system : string := "{system}" ++ LF ++ LF.
Definition alpaca_user : string :=
  "### Instruction:" ++ LF ++ "{prompt}" ++ LF ++ LF ++ "### Response:" ++ LF.
Definition alpaca_response : string := "{response}" ++ LF ++ LF.
Definition alpaca_input : string :=
  "### Instruction:" ++ LF ++ "{prompt}" ++ LF ++ LF ++
  "### Input:" ++ LF ++ "{input}" ++ LF ++ LF ++ "### Response:" ++ LF.

Definition alpaca_store : gmap string (gmap string string) :=
  {[ "alpaca" := template_entry alpaca_system alpaca_user alpaca_response alpaca_input;
     "vicuna" := template_entry vicuna_system vicuna_user vicuna_response "" ]}.

(** A generator built for the model "gpt2" with the "alpaca" template
    selected and a system prompt set. *)
Definition gpt2_with_alpaca : PromptGenerator :=
  snd ((load_template "alpaca" ;;; set_system_prompt "Be brief.")
         (init "gpt2" alpaca_store)).

(** A generator built for the model "alpaca" with the "alpaca" template
    selected. *)
Definition alpaca_with_alpaca : PromptGenerator :=
  snd ((load_template "alpaca" ;;; set_system_prompt "Be brief.")
         (init "alpaca" alpaca_store)).

(** A generator built for the model "alpaca" with the "vicuna" template
    selected. *)
Definition alpaca_with_vicuna : PromptGenerator :=
  snd ((load_template "vicuna" ;;; set_system_prompt "Be brief.")
         (init "alpaca" alpaca_store)).

(** ** Conversations of rendered strings, and sequences of calls *)

Definition is_str (x : turn) : bool :=
  match x with TStr _ => true | TDict _ _ => false end.

(** Every element is a rendered string. *)
Definition all_str (l : list turn) : bool := forallb is_str l.

(** The rendered strings of a conversation, one after the other. *)
Fixpoint concat_str (l : list turn) : string :=
  match l with
  | [] => EmptyString
  | TStr s :: l' => s ++ concat_str l'
  | TDict _ _ :: l' => concat_str l'
  end.



(** The bound name and the llama-2 flag exist together, the flag says
    whether the name is "llama-2-chat", and the name is lower-case. *)
Definition binding_consistent (o : PromptGenerator) : Prop :=
  match template_name o with
  | None => is_llama_2 o = None
  | Some id =>
      is_llama_2 o = Some (String.eqb id "llama-2-chat") /\ PyStr.lower id = id
  end.

(** One call of a public method. *)
Inductive call : Type :=
| CLoadTemplate (template : string)
| CCustomTemplate (system_template response_template user_template input_template : string)
| CSetSystemPrompt (text : string)
| CAddToConversation (role text preprompt input : string)
| CClearConversation
| CReduceLength (conv : Z)
| CGenerateOneShotPrompt (user_prompt preprompt system_prompt input : string)
| CGeneratePrompt
| CLen.

(** What a call returns. *)
Inductive value : Type :=
| VNone
| VStr (s : string)
| VPrompt (p : prompt)
| VInt (n : nat).

Definition returning {A} (f : A -> value) (m : M A) : M value :=
  x <~ m ;; ret (f x).

Definition run_call (c : call) : M value :=
  match c with
  | CLoadTemplate t => returning (fun _ => VNone) (load_template t)
  | CCustomTemplate s r u i => returning (fun _ => VNone) (custom_template s r u i)
  | CSetSystemPrompt t => returning (fun _ => VNone) (set_system_prompt t)
  | CAddToConversation r t p i => returning (fun _ => VNone) (add_to_conversation r t p i)
  | CClearConversation => returning (fun _ => VNone) clear_conversation
  | CReduceLength k => returning (fun _ => VNone) (reduce_length k)
  | CGenerateOneShotPrompt u p s i => returning VStr (generate_one_shot_prompt u p s i)
  | CGeneratePrompt => returning VPrompt generate_prompt
  | CLen => returning VInt len
  end.

(** A client that makes the calls in order on one object, catching what
    they raise. *)
Definition run_calls (cs : list call) (o : PromptGenerator) : PromptGenerator :=
  fold_left (fun o c => snd (run_call c o)) cs o.

(** A store with an "openai" entry of role tags. *)
Definition openai_store : gmap string (gmap string string) :=
  {[ "openai" := template_entry "system" "user" "assistant" "";
     "vicuna" := template_entry vicuna_system vicuna_user vicuna_response "" ]}.

Definition openai_started : PromptGenerator :=
  snd ((load_template "OpenAI" ;;; set_system_prompt " X ") (init "gpt" openai_store)).


(** A vicuna conversation holding the system message only, and one with
    two exchanges. *)
Definition vicuna_started : PromptGenerator :=
  snd ((load_template "vicuna" ;;; set_system_prompt "You are helpful.")
         (init "gpt2" vicuna_store)).

Definition vicuna_two_exchanges : PromptGenerator :=
  snd ((add_to_conversation "user" "Hi" "" "" ;;;
        add_to_conversation "model" "Hello!" "" "" ;;;
        add_to_conversation "user" "More" "" "" ;;;
        add_to_conversation "model" "Sure." "" "") vicuna_started).

(** A store whose "broken" entry lacks the "system" and "input" keys. *)
Definition broken_store : gmap string (gmap string string) :=
  {[ "broken" := {[ "response" := "{response}"; "user" := "{prompt}" ]};
     "vicuna" := template_entry vicuna_system vicuna_user vicuna_response "" ]}.

(** Nothing to strip on the left: the text is empty or starts with a
    character that is not white space. *)
Definition left_clean (s : string) : bool :=
  match s with
  | EmptyString => true
  | String c _ => negb (PyStr.is_space c)
  end.

(** A computation that leaves the object as it is. *)
Definition reads_only {A} (m : M A) : Prop := forall o, snd (m o) = o.

(** A computation that either appends one element and returns, or raises
    and leaves the object as it is. *)
Definition appends_or_raises (m : M unit) : Prop :=
  forall o, (exists x, m o = (Ok tt, appended x o)) \/ (exists e, m o = (Raise e, o)).

(** A call other than [load_template]. *)
Definition keeps_template (c : call) : bool :=
  match c with CLoadTemplate _ => false | _ => true end.

(** The name [id] is bound and the conversation holds rendered strings
    only. *)
Definition strs_under (id : string) (o : PromptGenerator) : Prop :=
  template_name o = Some id /\ all_str (conversation o) = true.

Definition keeps_strs {A} (id : string) (m : M A) : Prop :=
  forall o, strs_under id o -> strs_under id (snd (m o)).

(** A call that adds a turn with a role other than "system". *)
Definition is_chat_turn (c : call) : bool :=
  match c with
  | CAddToConversation role _ _ _ => negb (String.eqb (PyStr.lower role) "system")
  | _ => false
  end.

(** Unfolds the state-transformer combinators of a method body. *)
Ltac run_method :=
  unfold bind, ret, raise, read, attr, assign, lift, append_turn; simpl.

(** * Properties *)

(** ** Strings *)

Section StringFacts.

Lemma length_append (a b : string) :
  String.length (a ++ b) = String.length a + String.length b.
Proof. induction a as [|c a IH]; simpl; [reflexivity | now rewrite IH]. Qed.

Lemma append_assoc (a b c : string) : (a ++ b) ++ c = a ++ (b ++ c).
Proof. induction a as [|x a IH]; simpl; [reflexivity | now rewrite IH]. Qed.

Lemma append_empty_r (a : string) : a ++ "" = a.
Proof. induction a as [|x a IH]; simpl; [reflexivity | now rewrite IH]. Qed.

Lemma starts_with_length (p s : string) :
  PyStr.starts_with p s = true -> String.length p <= String.length s.
Proof.
  revert s; induction p as [|a p IH]; intros [|b s]; simpl; try lia; try discriminate.
  intros H. apply andb_prop in H as [_ H]. apply IH in H. lia.
Qed.

Lemma starts_with_app (p s t : string) :
  PyStr.starts_with p s = true -> PyStr.starts_with p (s ++ t) = true.
Proof.
  revert s; induction p as [|a p IH]; intros [|b s]; simpl; try reflexivity; try discriminate.
  intros H. apply andb_prop in H as [Hab H]. rewrite Hab. simpl. now apply IH.
Qed.

(** A replacement by the empty string never lengthens the text. *)
Lemma replace_scan_shrinks (old s : string) (k : nat) :
  String.length (PyStr.replace_scan old "" k s) <= String.length s.
Proof.
  revert k; induction s as [|c s IH]; intros k; simpl; [lia|].
  destruct k as [|k].
  - destruct (PyStr.starts_with old (String c s)); simpl.
    + specialize (IH (String.length old - 1)). lia.
    + specialize (IH 0). lia.
  - specialize (IH k). lia.
Qed.

End StringFacts.

(** ** The instruction marker of the llama-2 chat format *)

Section Marker.

Lemma remove_marker_scan (s : string) :
  remove_marker s = PyStr.replace_scan marker "" 0 s.
Proof. reflexivity. Qed.

(** The marker has no border: an occurrence cannot start inside a text
    that is followed by another occurrence unless it lies within the
    text itself. *)
Lemma marker_no_overlap (c : ascii) (a b : string) :
  PyStr.starts_with marker (String c a) = false ->
  PyStr.starts_with marker (String c a ++ marker ++ b) = false.
Proof.
  unfold marker.
  destruct a as [|c2 [|c3 [|c4 [|c5 [|c6 [|c7 a]]]]]]; cbn [PyStr.starts_with append];
    intros H;
    repeat match goal with
           | |- context [Ascii.eqb ?x ?y] =>
               destruct (Ascii.eqb x y) eqn:?; cbn [andb] in *
           end; try reflexivity; try discriminate; try exact H.
Qed.

Lemma remove_marker_split_scan (a b : string) (k : nat) :
  k <= String.length a ->
  PyStr.replace_scan marker "" k (a ++ marker ++ b)
  = PyStr.replace_scan marker "" k a ++ PyStr.replace_scan marker "" 0 b.
Proof.
  revert k; induction a as [|c a IH]; intros k Hk.
  - assert (k = 0) as -> by (simpl in Hk; lia). reflexivity.
  - destruct k as [|k].
    + change (String c a ++ marker ++ b) with (String c (a ++ marker ++ b)).
      cbn [PyStr.replace_scan].
      destruct (PyStr.starts_with marker (String c a)) eqn:Hs.
      * pose proof (starts_with_length _ _ Hs) as Hl.
        change (String c (a ++ marker ++ b)) with (String c a ++ marker ++ b).
        rewrite (starts_with_app _ _ _ Hs).
        cbn [append]. apply IH. simpl in Hl |- *. lia.
      * change (String c (a ++ marker ++ b)) with (String c a ++ marker ++ b).
        rewrite (marker_no_overlap _ _ _ Hs).
        cbn [append]. f_equal. apply IH. lia.
    + change (String c a ++ marker ++ b) with (String c (a ++ marker ++ b)).
      cbn [PyStr.replace_scan]. apply IH. simpl in Hk. lia.
Qed.

(** Every occurrence of the marker goes: wherever the text splits around
    one, the result is the two sides, each with its own markers removed. *)
Lemma remove_marker_split (a b : string) :
  remove_marker (a ++ marker ++ b) = remove_marker a ++ remove_marker b.
Proof. rewrite !remove_marker_scan. apply remove_marker_split_scan. lia. Qed.

Lemma remove_marker_shrinks (s : string) :
  String.length (remove_marker s) <= String.length s.
Proof. rewrite remove_marker_scan. apply replace_scan_shrinks. Qed.

End Marker.

(** ** Running methods *)

Section Running.

Lemma bind_ok {A B} (m : M A) (k : A -> M B) (o o' : PromptGenerator) (a : A) :
  m o = (Ok a, o') -> bind m k o = k a o'.
Proof. intros H. unfold bind. now rewrite H. Qed.

Lemma bind_raise {A B} (m : M A) (k : A -> M B) (o o' : PromptGenerator) (e : exn) :
  m o = (Raise e, o') -> bind m k o = (Raise e, o').
Proof. intros H. unfold bind. now rewrite H. Qed.

End Running.

(** ** Template binding *)

Section Binding.

Lemma load_template_ok (o : PromptGenerator) (name r u s i : string)
      (entry : gmap string string) :
  model_templates o !! PyStr.lower name = Some entry ->
  entry !! "response" = Some r ->
  entry !! "user" = Some u ->
  entry !! "system" = Some s ->
  entry !! "input" = Some i ->
  load_template name o = (Ok tt, bind_template (PyStr.lower name) r u s i o).
Proof.
  intros He Hr Hu Hs Hi. unfold load_template, item. run_method.
  rewrite He. run_method. rewrite Hr, Hu, Hs, Hi. simpl.
  unfold bind_template. now destruct (String.eqb (PyStr.lower name) "llama-2-chat").
Qed.

Lemma bind_template_bound (id r u s i : string) (o : PromptGenerator) :
  bound_to id (bind_template id r u s i o).
Proof. split; reflexivity. Qed.

(** Whatever [load_template] does on success, it leaves the name and the
    llama-2 flag in agreement. *)
Lemma load_template_bound (o o' : PromptGenerator) (name : string) :
  load_template name o = (Ok tt, o') -> bound_to (PyStr.lower name) o'.
Proof.
  unfold load_template, item. run_method.
  destruct (model_templates o !! PyStr.lower name) as [entry|]; run_method;
    [|discriminate].
  destruct (entry !! "response"); run_method; [|discriminate].
  destruct (entry !! "user"); run_method; [|discriminate].
  destruct (entry !! "system"); run_method; [|discriminate].
  destruct (entry !! "input"); run_method; [|discriminate].
  destruct (String.eqb (PyStr.lower name) "llama-2-chat") eqn:E;
    intros [= <-]; split; simpl; now rewrite ?E.
Qed.

(** The lookup is case-insensitive on the side of the caller: a name
    that no key of the store matches, case folded, is not found. *)
Lemma lower_char_idempotent (c : ascii) :
  PyStr.lower_char (PyStr.lower_char c) = PyStr.lower_char c.
Proof. destruct c as [[] [] [] [] [] [] [] []]; reflexivity. Qed.

Lemma lower_idempotent (s : string) : PyStr.lower (PyStr.lower s) = PyStr.lower s.
Proof.
  induction s as [|c s IH]; simpl; [reflexivity|].
  now rewrite lower_char_idempotent, IH.
Qed.

Lemma absent_any_case (store : gmap string (gmap string string)) (name : string) :
  (forall k, is_Some (store !! k) -> PyStr.lower k <> PyStr.lower name) ->
  store !! PyStr.lower name = None.
Proof.
  intros H. destruct (store !! PyStr.lower name) eqn:E; [|reflexivity].
  exfalso. apply (H (PyStr.lower name)); [now rewrite E | apply lower_idempotent].
Qed.

End Binding.

(** ** Selecting a template (C8) and scenario A (C1) *)

(** C8: selecting a name that the store does not have (the store is asked
    for the lower-cased name, its keys being lower-case identifiers) raises
    [ValueError("Template not found.")] and leaves the whole object as it
    was: the four sub-templates, the bound name, the llama-2 flag and the
    conversation. *)
Theorem load_template_unknown (o : PromptGenerator) (name : string) :
  model_templates o !! PyStr.lower name = None ->
  load_template name o = (Raise (ValueError "Template not found."), o).
Proof.
  intros H. unfold load_template. run_method. now rewrite H.
Qed.

Lemma load_template_unknown_witness :
  let o := bind_template "vicuna" vicuna_response vicuna_user vicuna_system ""
             (set_conversation [TStr "kept"] (init "gpt2" vicuna_store)) in
  model_templates o !! PyStr.lower "Orca-Hashes" = None /\
  load_template "Orca-Hashes" o = (Raise (ValueError "Template not found."), o).
Proof.
  cbv zeta.
  split; [vm_compute; reflexivity | apply load_template_unknown; vm_compute; reflexivity].
Defined.

(** C1 (scenario A): with the "vicuna" template selected, a system prompt,
    one user turn and one model turn are each rendered through their
    sub-template and appended in order; [generate_prompt] returns their
    concatenation, stripped. *)
Theorem scenario_vicuna (name inp : string)
        (store : gmap string (gmap string string)) (entry : gmap string string) :
  store !! "vicuna" = Some entry ->
  entry !! "system" = Some vicuna_system ->
  entry !! "user" = Some vicuna_user ->
  entry !! "response" = Some vicuna_response ->
  entry !! "input" = Some inp ->
  let run := (load_template "vicuna" ;;;
              set_system_prompt "You are helpful." ;;;
              add_to_conversation "user" "Hi" "" "" ;;;
              add_to_conversation "model" "Hello!" "" "" ;;;
              generate_prompt) (init name store) in
  fst run
  = Ok (PromptStr ("You are helpful." ++ LF ++ "USER: Hi" ++ LF ++ "ASSISTANT: Hello!</s>"))
  /\
  conversation (snd run)
  = [TStr ("You are helpful." ++ LF);
     TStr ("USER: Hi" ++ LF ++ "ASSISTANT:");
     TStr " Hello!</s>"].
Proof.
  intros He Hs Hu Hr Hi. cbv zeta.
  rewrite (bind_ok _ _ _ _ _
             (load_template_ok (init name store) "vicuna" _ _ _ _ entry He Hr Hu Hs Hi)).
  split; vm_compute; reflexivity.
Qed.

Lemma scenario_vicuna_witness :
  fst ((load_template "vicuna" ;;;
        set_system_prompt "You are helpful." ;;;
        add_to_conversation "user" "Hi" "" "" ;;;
        add_to_conversation "model" "Hello!" "" "" ;;;
        generate_prompt) (init "gpt2" vicuna_store))
  = Ok (PromptStr ("You are helpful." ++ LF ++ "USER: Hi" ++ LF ++ "ASSISTANT: Hello!</s>")).
Proof.
  apply (scenario_vicuna "gpt2" "" vicuna_store
           (template_entry vicuna_system vicuna_user vicuna_response ""));
    vm_compute; reflexivity.
Defined.

(** ** User turns *)

Section UserTurns.

Variables (o : PromptGenerator) (role text preprompt input : string).
Hypothesis Hrole : PyStr.lower role = "user".
Hypothesis Hguard : input_misused role input = false.

(** First branch: one element in the conversation and the llama-2 flag. *)
Lemma add_user_first_llama (u : string) :
  length (conversation o) = 1 ->
  is_llama_2 o = Some true ->
  user_prompt_helper o = Some u ->
  add_to_conversation role text preprompt input o
  = append_rendered (PyFormat.format u [("prompt", combined preprompt text)])
                    remove_marker o.
Proof.
  intros Hlen Hl Hu. unfold add_to_conversation, first_llama_turn.
  rewrite Hguard, Hrole. run_method. rewrite Hlen. simpl. rewrite Hl, Hu.
  unfold append_rendered. now destruct (PyFormat.format _ _).
Qed.

Lemma first_llama_turn_false :
  not_first_llama o -> first_llama_turn o = (Ok false, o).
Proof.
  intros [Hlen | Hl]; unfold first_llama_turn, bind, read, attr, ret.
  - destruct (Nat.eqb_spec (length (conversation o)) 1); [contradiction | reflexivity].
  - destruct (Nat.eqb (length (conversation o)) 1); [now rewrite Hl | reflexivity].
Qed.

(** Last branch: the user sub-template, with both keywords. *)
Lemma add_user_plain (id u : string) :
  not_first_llama o ->
  template_name o = Some id ->
  String.eqb id "openai" = false ->
  PyStr.truthy input && String.eqb id "alpaca" = false ->
  user_prompt_helper o = Some u ->
  add_to_conversation role text preprompt input o
  = append_rendered (PyFormat.format u [("prompt", combined preprompt text);
                                         ("input", PyStr.strip input)])
                    (fun s => s) o.
Proof.
  intros Hnf Hn Ho Ha Hu. unfold add_to_conversation.
  rewrite Hguard, Hrole. cbn [String.eqb Ascii.eqb Bool.eqb].
  rewrite (bind_ok _ _ _ _ _ (first_llama_turn_false Hnf)).
  run_method. rewrite Hn, Ho, Ha, Hu.
  unfold append_rendered. now destruct (PyFormat.format _ _).
Qed.

(** Third branch: a non-empty [input] under the name "alpaca" goes through
    the input sub-template, and only [prompt] is passed to [format]. *)
Lemma add_user_alpaca_input (h : string) :
  not_first_llama o ->
  template_name o = Some "alpaca" ->
  PyStr.truthy input = true ->
  input_prompt_helper o = Some h ->
  add_to_conversation role text preprompt input o
  = append_rendered (PyFormat.format h [("prompt", combined preprompt text)])
                    (fun s => s) o.
Proof.
  intros Hnf Hn Hi Hh. unfold add_to_conversation.
  rewrite Hguard, Hrole. cbn [String.eqb Ascii.eqb Bool.eqb].
  rewrite (bind_ok _ _ _ _ _ (first_llama_turn_false Hnf)).
  run_method. rewrite Hn. simpl. rewrite Hi. simpl. rewrite Hh.
  unfold append_rendered. now destruct (PyFormat.format _ _).
Qed.

End UserTurns.

(** ** Rendering literal text and the [{prompt}] field *)

Section Rendering.

Lemma result_map_append_empty (r : result string) :
  result_map (String.append "") r = r.
Proof. now destruct r. Qed.

Lemma result_map_compose {A B C} (f : A -> B) (g : B -> C) (r : result A) :
  result_map g (result_map f r) = result_map (fun a => g (f a)) r.
Proof. now destruct r. Qed.

Lemma format_literal (kw : PyFormat.kwargs) (lit t : string) :
  brace_free lit = true ->
  PyFormat.format (lit ++ t) kw
  = result_map (String.append lit) (PyFormat.format t kw).
Proof.
  unfold PyFormat.format. induction lit as [|c lit IH]; intros Hb.
  - simpl. now rewrite result_map_append_empty.
  - simpl in Hb. apply andb_prop in Hb as [Hc Hb]. apply andb_prop in Hc as [Ho Hc].
    apply negb_true_iff in Ho, Hc.
    change (String c lit ++ t) with (String c (lit ++ t)).
    cbn [PyFormat.scan]. rewrite Ho, Hc, (IH Hb).
    now rewrite result_map_compose.
Qed.

Lemma format_literal_only (kw : PyFormat.kwargs) (lit : string) :
  brace_free lit = true -> PyFormat.format lit kw = Ok lit.
Proof.
  intros Hb. rewrite <- (append_empty_r lit) at 1.
  rewrite (format_literal _ _ _ Hb). simpl. now rewrite append_empty_r.
Qed.

Lemma format_prompt_field (kw : PyFormat.kwargs) (c t : string) :
  PyFormat.format ("{prompt}" ++ t) (("prompt", c) :: kw)
  = result_map (String.append c) (PyFormat.format t (("prompt", c) :: kw)).
Proof. reflexivity. Qed.

(** A user sub-template that wraps the prompt in the instruction markers,
    between two pieces of literal text. *)
Lemma format_inst_prompt (kw : PyFormat.kwargs) (pre post c : string) :
  brace_free pre = true -> brace_free post = true ->
  PyFormat.format (pre ++ "[INST] {prompt} [/INST]" ++ post) (("prompt", c) :: kw)
  = Ok (pre ++ "[INST] " ++ c ++ " [/INST]" ++ post).
Proof.
  intros Hpre Hpost.
  rewrite (format_literal _ _ _ Hpre).
  change ("[INST] {prompt} [/INST]" ++ post)
    with ("[INST] " ++ "{prompt}" ++ " [/INST]" ++ post).
  rewrite (format_literal _ "[INST] " _ eq_refl), format_prompt_field.
  rewrite (format_literal _ " [/INST]" _ eq_refl), (format_literal_only _ _ Hpost).
  reflexivity.
Qed.

End Rendering.

(** ** The llama-2 chat format (C2, C10) *)

Section Llama2.

Variables (o : PromptGenerator) (u role text preprompt input : string).
Hypothesis Hbound : bound_to "llama-2-chat" o.
Hypothesis Huser : user_prompt_helper o = Some u.
Hypothesis Hrole : PyStr.lower role = "user".
Hypothesis Hguard : input_misused role input = false.

Lemma llama2_flag_on : is_llama_2 o = Some true.
Proof. now destruct Hbound as [_ ->]. Qed.

Lemma llama2_later_turn :
  length (conversation o) <> 1 ->
  add_to_conversation role text preprompt input o
  = append_rendered (PyFormat.format u [("prompt", combined preprompt text);
                                         ("input", PyStr.strip input)])
                    (fun s => s) o.
Proof.
  intros Hlen. destruct Hbound as [Hn _].
  apply (add_user_plain o role text preprompt input Hrole Hguard "llama-2-chat" u);
    auto using andb_false_r.
  now left.
Qed.

End Llama2.

(** C2 (scenario B): under the bound name "llama-2-chat", a user turn added
    when the conversation has exactly one element is the user sub-template's
    rendering with [" \[INST\]"] replaced by nothing; a user turn added at
    any other length is the user sub-template's rendering as it is. *)
Theorem llama2_first_user_turn
        (o : PromptGenerator) (u role text preprompt input : string) :
  bound_to "llama-2-chat" o ->
  user_prompt_helper o = Some u ->
  PyStr.lower role = "user" ->
  input_misused role input = false ->
  (length (conversation o) = 1 ->
   forall r, PyFormat.format u [("prompt", combined preprompt text)] = Ok r ->
     add_to_conversation role text preprompt input o
     = (Ok tt, appended (TStr (PyStr.replace r " [INST]" "")) o))
  /\
  (length (conversation o) <> 1 ->
   forall r, PyFormat.format u [("prompt", combined preprompt text);
                                ("input", PyStr.strip input)] = Ok r ->
     add_to_conversation role text preprompt input o
     = (Ok tt, appended (TStr r) o)).
Proof.
  intros Hb Hu Hrole Hguard. split; intros Hlen r Hr.
  - rewrite (add_user_first_llama o role text preprompt input Hrole Hguard u Hlen
               (llama2_flag_on o Hb) Hu).
    unfold append_rendered. now rewrite Hr.
  - rewrite (llama2_later_turn o u role text preprompt input Hb Hu Hrole Hguard Hlen).
    unfold append_rendered. now rewrite Hr.
Qed.

Lemma llama2_first_user_turn_witness :
  add_to_conversation "User" "Hi" "" "" llama2_started
  = (Ok tt, appended (TStr " Hi [/INST]") llama2_started)
  /\
  add_to_conversation "user" "More" "" "" llama2_after_exchange
  = (Ok tt, appended (TStr " [INST] More [/INST]") llama2_after_exchange).
Proof.
  split.
  - refine (proj1 (llama2_first_user_turn llama2_started llama2_user
                     "User" "Hi" "" "" _ _ _ _) _ " [INST] Hi [/INST]" _);
      vm_compute; try reflexivity; split; reflexivity.
  - refine (proj2 (llama2_first_user_turn llama2_after_exchange llama2_user
                     "user" "More" "" "" _ _ _ _) _ " [INST] More [/INST]" _);
      vm_compute; try reflexivity; try discriminate; split; reflexivity.
Defined.

(** The same for a user sub-template that contains
    ["\[INST\] {prompt} \[/INST\]"] between literal text: the later turn
    keeps the markers around the prompt, the first one is that text with
    the marker removed. *)
Lemma llama2_inst_template
      (o : PromptGenerator) (pre post role text preprompt input : string) :
  bound_to "llama-2-chat" o ->
  user_prompt_helper o = Some (pre ++ "[INST] {prompt} [/INST]" ++ post) ->
  brace_free pre = true -> brace_free post = true ->
  PyStr.lower role = "user" ->
  input_misused role input = false ->
  let rendered := pre ++ "[INST] " ++ combined preprompt text ++ " [/INST]" ++ post in
  add_to_conversation role text preprompt input o
  = (Ok tt, appended (TStr (if Nat.eqb (length (conversation o)) 1
                            then remove_marker rendered else rendered)) o).
Proof.
  intros Hb Hu Hpre Hpost Hrole Hguard rendered.
  destruct (Nat.eqb_spec (length (conversation o)) 1) as [Hlen|Hlen].
  - rewrite (add_user_first_llama o role text preprompt input Hrole Hguard _ Hlen
               (llama2_flag_on o Hb) Hu).
    now rewrite (format_inst_prompt _ _ _ _ Hpre Hpost).
  - rewrite (llama2_later_turn o _ role text preprompt input Hb Hu Hrole Hguard Hlen).
    now rewrite (format_inst_prompt _ _ _ _ Hpre Hpost).
Qed.

(** C10: on that first user turn the replacement runs over the whole
    rendered string.  Wherever the rendering splits around an occurrence of
    [" \[INST\]"], the appended turn is the two sides with their own
    occurrences removed, so it is shorter by the marker at least; when the
    user sub-template wraps the prompt in the markers, an occurrence inside
    the caller's text is therefore deleted as well. *)
Theorem llama2_marker_removed_everywhere
        (o : PromptGenerator) (u role text preprompt input r : string) :
  bound_to "llama-2-chat" o ->
  user_prompt_helper o = Some u ->
  PyStr.lower role = "user" ->
  input_misused role input = false ->
  length (conversation o) = 1 ->
  PyFormat.format u [("prompt", combined preprompt text)] = Ok r ->
  exists t,
    add_to_conversation role text preprompt input o = (Ok tt, appended (TStr t) o)
    /\ t = PyStr.replace r " [INST]" ""
    /\ (forall a b, r = a ++ " [INST]" ++ b ->
          t = PyStr.replace a " [INST]" "" ++ PyStr.replace b " [INST]" ""
          /\ String.length t + String.length " [INST]" <= String.length r)
    /\ (forall pre post a b,
          u = pre ++ "[INST] {prompt} [/INST]" ++ post ->
          brace_free pre = true -> brace_free post = true ->
          combined preprompt text = a ++ " [INST]" ++ b ->
          t = PyStr.replace (pre ++ "[INST] " ++ a) " [INST]" ""
              ++ PyStr.replace (b ++ " [/INST]" ++ post) " [INST]" "").
Proof.
  intros Hb Hu Hrole Hguard Hlen Hr.
  exists (remove_marker r). split; [|split; [reflexivity|split]].
  - rewrite (add_user_first_llama o role text preprompt input Hrole Hguard u Hlen
               (llama2_flag_on o Hb) Hu).
    unfold append_rendered. now rewrite Hr.
  - intros a b ->. fold marker. fold (remove_marker a) (remove_marker b).
    rewrite remove_marker_split. split; [reflexivity|].
    rewrite !length_append.
    pose proof (remove_marker_shrinks a). pose proof (remove_marker_shrinks b). lia.
  - intros pre post a b -> Hpre Hpost Hc.
    rewrite (format_inst_prompt _ _ _ _ Hpre Hpost) in Hr. injection Hr as <-.
    rewrite Hc. fold marker.
    fold (remove_marker (pre ++ "[INST] " ++ a))
         (remove_marker (b ++ " [/INST]" ++ post)).
    rewrite <- remove_marker_split. f_equal.
    now rewrite !append_assoc.
Qed.

Lemma llama2_marker_removed_everywhere_witness :
  exists t,
    add_to_conversation "user" "see [INST] and [INST]" "" "" llama2_started
    = (Ok tt, appended (TStr t) llama2_started)
    /\ t = " see and [/INST]".
Proof.
  destruct (llama2_marker_removed_everywhere llama2_started llama2_user
              "user" "see [INST] and [INST]" "" ""
              " [INST] see [INST] and [INST] [/INST]")
    as (t & Hadd & Ht & _).
  - split; reflexivity.
  - reflexivity.
  - reflexivity.
  - reflexivity.
  - reflexivity.
  - vm_compute; reflexivity.
  - exists t. split; [exact Hadd | rewrite Ht; vm_compute; reflexivity].
Defined.

(** ** Reducing the history (C3) *)

Section Reducing.

Lemma reduce_length_stores (conv : Z) (o : PromptGenerator) :
  reduce_length conv o = (Ok tt, set_conversation (reduced conv (conversation o)) o).
Proof. reflexivity. Qed.

Lemma take_1_drop_1 {A} (l : list A) : (take 1 l ++ drop 1 l)%list = l.
Proof. apply take_drop. Qed.

(** A conversation that fits the window strictly, or fills it with one
    element to spare, is stored back as it is. *)
Lemma reduced_fits (k : Z) (l : list turn) :
  length l <> 1 ->
  (Z.of_nat (length l) <= k * 2)%Z ->
  (Z.of_nat (length l) <> k * 2 - 1)%Z ->
  reduced k l = l.
Proof.
  intros H1 Hle Hne. unfold reduced, slice_from.
  destruct (Z.ltb_spec (Z.of_nat (length l)) (k * 2 - 1)%Z) as [Hlt|Hge].
  - destruct l as [|x l]; [reflexivity|].
    destruct (Z.ltb_spec (- (Z.of_nat (length (x :: l)) - 1))%Z 0%Z) as [Hn|Hn];
      [|simpl in *; lia].
    replace (Z.to_nat _) with 1 by lia. apply take_1_drop_1.
  - assert (Z.of_nat (length l) = k * 2)%Z as Hk by lia.
    destruct l as [|x l]; [simpl; now rewrite drop_nil|].
    destruct (Z.ltb_spec (- (k * 2 - 1))%Z 0%Z) as [Hn|Hn]; [|simpl in *; lia].
    replace (Z.to_nat _) with 1 by lia. apply take_1_drop_1.
Qed.

(** A conversation of exactly [conv*2 - 1] elements is not clamped: the
    slice is the whole list and the first element is stored twice. *)
Lemma reduced_boundary (k : Z) (l : list turn) :
  Z.of_nat (length l) = (k * 2 - 1)%Z ->
  reduced k l = (take 1 l ++ l)%list.
Proof.
  intros Hn. unfold reduced, slice_from. rewrite Hn, Z.ltb_irrefl.
  f_equal.
  destruct (Z.ltb_spec (- (k * 2 - 1))%Z 0%Z) as [Hlt|Hge].
  - now replace (Z.to_nat _) with 0 by lia.
  - now replace (Z.to_nat _) with 0 by lia.
Qed.

(** A conversation holding the system message alone is clamped to a
    window of [0], and [l\[-0:\]] is the whole list. *)
Lemma reduced_single (k : Z) (s : turn) :
  (1 < k * 2 - 1)%Z -> reduced k [s] = [s; s].
Proof.
  intros Hk. unfold reduced, slice_from. simpl length.
  destruct (Z.ltb_spec (Z.of_nat 1) (k * 2 - 1)%Z) as [_|Hge]; [reflexivity | lia].
Qed.

(** Within the window, reducing once more changes nothing. *)
Lemma reduced_idempotent_in_window (k : Z) (l : list turn) :
  (Z.of_nat (length l) - 1 <= k * 2 - 1)%Z ->
  reduced k (reduced k l) = reduced k l.
Proof.
  intros Hw.
  destruct (Z.eq_dec (Z.of_nat (length l)) (k * 2 - 1)%Z) as [Hb|Hb].
  - rewrite (reduced_boundary k l Hb).
    destruct l as [|x l].
    + exact (reduced_boundary k [] Hb).
    + apply reduced_fits; simpl length in *; rewrite ?length_app; simpl; lia.
  - destruct (Nat.eq_dec (length l) 1) as [H1|H1].
    + destruct l as [|s [|y l]]; try discriminate.
      simpl in Hb, Hw.
      rewrite (reduced_single k s) by lia.
      apply reduced_fits; simpl; lia.
    + now rewrite !(reduced_fits k l H1) by lia.
Qed.

(** The stored list and the specified one agree away from the two
    degenerate lengths. *)
Lemma reduced_meets_specification (k : Z) (l : list turn) :
  length l <> 1 ->
  (Z.of_nat (length l) <> k * 2 - 1)%Z ->
  (1 <= k)%Z ->
  reduced k l = reduced_as_specified k l.
Proof.
  intros H1 Hne Hk. unfold reduced, reduced_as_specified, slice_from, last_n.
  f_equal.
  destruct (Z.ltb_spec (Z.of_nat (length l)) (k * 2 - 1)%Z) as [Hlt|Hge];
    destruct (Z.ltb_spec (Z.of_nat (length l) - 1)%Z (k * 2 - 1)%Z) as [Hlt'|Hge'];
    try lia.
  - destruct (Z.ltb_spec (- (Z.of_nat (length l) - 1))%Z 0%Z) as [Hn|Hn].
    + f_equal. lia.
    + destruct l as [|x l]; [reflexivity | simpl in *; lia].
  - destruct (Z.ltb_spec (- (k * 2 - 1))%Z 0%Z); [|lia].
    f_equal. lia.
Qed.

End Reducing.

(** C3: [reduce_length(2)] on a system message followed by two turns.  The
    conversation is within the window ([3 - 1 <= 2*2 - 1]); the window as
    specified is clamped to [2] and the conversation stays as it is, but
    the method tests [len < 3] where [len - 1 < 3] is meant, takes the
    slice [l\[-3:\]] of the whole list and stores the system message
    twice.  A second call finds the list of four and leaves it. *)
Theorem reduce_length_duplicates_system (s u m : turn) :
  reduced 2 [s; u; m] = [s; s; u; m] /\
  reduced_as_specified 2 [s; u; m] = [s; u; m] /\
  reduced 2 (reduced 2 [s; u; m]) = reduced 2 [s; u; m].
Proof. repeat split. Qed.

(** ** Roles and the [input] guard (C4, C5) *)

Section Roles.

Lemma lower_user : PyStr.lower "user" = "user".
Proof. reflexivity. Qed.

(** The guard compares the role as given, the dispatch compares it
    lower-cased. *)
Lemma input_misused_spec (role input : string) :
  input_misused role input = true <-> role <> "user" /\ input <> "".
Proof.
  unfold input_misused. rewrite andb_true_iff, negb_true_iff, String.eqb_neq.
  destruct input; simpl; split; intros [? ?]; split; congruence.
Qed.

Lemma add_guard_raises (o : PromptGenerator) (role text preprompt input : string) :
  input_misused role input = true ->
  add_to_conversation role text preprompt input o
  = (Raise (ValueError "Input parameter can only be used with user role"), o).
Proof. intros H. unfold add_to_conversation. now rewrite H. Qed.

Lemma add_no_branch (o : PromptGenerator) (role text preprompt input : string) :
  input_misused role input = false ->
  PyStr.lower role <> "system" ->
  PyStr.lower role <> "user" ->
  PyStr.lower role <> "model" ->
  add_to_conversation role text preprompt input o = (Ok tt, o).
Proof.
  intros Hg Hs Hu Hm. unfold add_to_conversation. rewrite Hg.
  apply String.eqb_neq in Hs, Hu, Hm. now rewrite Hs, Hu, Hm.
Qed.

End Roles.

(** C4: a role that is none of "system", "user", "model" once lower-cased
    raises nothing for the role: without [input] the call returns normally
    and the object is untouched; with [input] the only error is the one of
    the [input] guard.  The docstring of [add_to_conversation] promises a
    [ValueError] for such a role. *)
Theorem add_unknown_role_is_silent
        (o : PromptGenerator) (role text preprompt input : string) :
  PyStr.lower role <> "system" ->
  PyStr.lower role <> "user" ->
  PyStr.lower role <> "model" ->
  add_to_conversation role text preprompt input o
  = (if PyStr.truthy input
     then Raise (ValueError "Input parameter can only be used with user role")
     else Ok tt, o).
Proof.
  intros Hs Hu Hm.
  assert (String.eqb role "user" = false) as Hr.
  { apply String.eqb_neq. intros ->. now apply Hu. }
  destruct (PyStr.truthy input) eqn:Hi.
  - apply add_guard_raises. unfold input_misused. now rewrite Hr, Hi.
  - apply add_no_branch; try assumption. unfold input_misused. now rewrite Hi, andb_false_r.
Qed.

Lemma add_unknown_role_is_silent_witness :
  add_to_conversation "assistant" "Hello" "" "" llama2_started
  = (Ok tt, llama2_started).
Proof.
  apply (add_unknown_role_is_silent llama2_started "assistant" "Hello" "" "");
    vm_compute; discriminate.
Defined.

(** C5: the guard is case-sensitive.  Any role other than the exact string
    "user", given with a non-empty [input], raises the guard's [ValueError]
    and leaves the object untouched; this includes "User", which the
    dispatch below the guard would treat as a user turn. *)
Theorem input_guard_is_case_sensitive
        (o : PromptGenerator) (role text preprompt input : string) :
  role <> "user" -> input <> "" ->
  add_to_conversation role text preprompt input o
  = (Raise (ValueError "Input parameter can only be used with user role"), o).
Proof.
  intros Hr Hi. apply add_guard_raises. now apply input_misused_spec.
Qed.

Lemma input_guard_is_case_sensitive_witness :
  PyStr.lower "User" = "user" /\
  add_to_conversation "User" "Summarize" "" "some text" llama2_started
  = (Raise (ValueError "Input parameter can only be used with user role"),
     llama2_started).
Proof.
  split; [reflexivity|].
  apply (input_guard_is_case_sensitive llama2_started "User" "Summarize" "" "some text");
    discriminate.
Defined.

(** Without [input], "User" is a user turn like "user". *)
Lemma add_user_any_case (o : PromptGenerator) (role text preprompt : string) :
  PyStr.lower role = "user" ->
  add_to_conversation role text preprompt "" o
  = add_to_conversation "user" text preprompt "" o.
Proof.
  intros Hrole. unfold add_to_conversation, input_misused.
  rewrite Hrole, lower_user. simpl PyStr.truthy. now rewrite !andb_false_r.
Qed.

(** ** The input sub-template (C6, C7) *)

Section OneShot.

Variables (o : PromptGenerator) (user_prompt preprompt input : string).
Variables (hs hu hi : string).
Hypothesis Hs : system_prompt_helper o = Some hs.
Hypothesis Hu : user_prompt_helper o = Some hu.
Hypothesis Hi : input_prompt_helper o = Some hi.

(** With no [system_prompt] argument the object is not modified, and the
    branch is chosen by [model_name], whatever [template_name] is. *)
Lemma one_shot_by_model_name :
  fst (generate_one_shot_prompt user_prompt preprompt "" input o)
  = if String.eqb (model_name o) "alpaca" && PyStr.truthy input
    then one_shot_with hi [("prompt", combined preprompt user_prompt);
                           ("input", PyStr.strip input)] hs (system_text o)
    else one_shot_with hu [("prompt", combined preprompt user_prompt)]
                       hs (system_text o).
Proof.
  unfold generate_one_shot_prompt, one_shot_with. run_method.
  destruct (String.eqb (model_name o) "alpaca" && PyStr.truthy input); run_method;
    rewrite Hs; simpl;
    destruct (PyFormat.format hs _); simpl; try reflexivity.
  - rewrite Hi. simpl. now destruct (PyFormat.format hi _).
  - rewrite Hu. simpl. now destruct (PyFormat.format hu _).
Qed.

End OneShot.

(** C6: [generate_one_shot_prompt] tests [self.model_name], the
    constructor argument, where [add_to_conversation] tests
    [self.template_name].  With the "alpaca" template selected on a
    generator built for another model, a non-empty [input] is rendered
    through the user sub-template and dropped; with another template
    selected on a generator built for the model "alpaca", the input
    sub-template of that other template is used. *)
Theorem one_shot_tests_model_name :
  template_name gpt2_with_alpaca = Some "alpaca" /\
  fst (generate_one_shot_prompt "Summarize" "" "" "some text" gpt2_with_alpaca)
  = Ok ("Be brief." ++ LF ++ LF ++ "### Instruction:" ++ LF ++ "Summarize"
        ++ LF ++ LF ++ "### Response:") /\
  template_name alpaca_with_vicuna = Some "vicuna" /\
  fst (generate_one_shot_prompt "Summarize" "" "" "some text" alpaca_with_vicuna)
  = Ok "Be brief.".
Proof. repeat split. Qed.

(** C7: under the "alpaca" template a user turn with a non-empty [input]
    is rendered by the input sub-template with the keyword [prompt] only,
    so the [{input}] field of that sub-template has no value: the call
    raises [KeyError] for the key "input" and appends nothing.  The
    one-shot method passes [input] to the same sub-template and renders
    it. *)
Theorem add_user_input_not_passed :
  add_to_conversation "user" "Summarize" "" "some text" gpt2_with_alpaca
  = (Raise (KeyError "input"), gpt2_with_alpaca) /\
  fst (generate_one_shot_prompt "Summarize" "" "" "some text" alpaca_with_alpaca)
  = Ok ("Be brief." ++ LF ++ LF ++ "### Instruction:" ++ LF ++ "Summarize"
        ++ LF ++ LF ++ "### Input:" ++ LF ++ "some text" ++ LF ++ LF
        ++ "### Response:").
Proof. split; reflexivity. Qed.

(** ** A custom template on a fresh object (C9) *)

(** C9: [custom_template] sets the four sub-templates and nothing else.
    On an object on which [load_template] has never succeeded,
    [template_name] does not exist: [set_system_prompt], a user turn, a
    model turn and [generate_prompt] all raise [AttributeError], and
    [set_system_prompt] has emptied the conversation by then. *)
Theorem custom_template_alone_is_unbound
        (name s r u i text : string) (store : gmap string (gmap string string)) :
  let o := snd (custom_template s r u i (init name store)) in
  user_prompt_helper o = Some u /\
  template_name o = None /\
  fst (set_system_prompt text o) = Raise (AttributeError "template_name") /\
  fst (add_to_conversation "user" text "" "" o) = Raise (AttributeError "template_name") /\
  fst (add_to_conversation "model" text "" "" o) = Raise (AttributeError "template_name") /\
  fst (generate_prompt o) = Raise (AttributeError "template_name").
Proof. repeat split. Qed.

(** ** The binding is stable *)

Section Stability.

Lemma same_binding_refl (o : PromptGenerator) : same_binding o o.
Proof. split; reflexivity. Qed.

Lemma same_binding_trans (o1 o2 o3 : PromptGenerator) :
  same_binding o1 o2 -> same_binding o2 o3 -> same_binding o1 o3.
Proof. intros [? ?] [? ?]. split; congruence. Qed.

Lemma keeps_ret {A} (a : A) : keeps_binding (ret a).
Proof. intros o. apply same_binding_refl. Qed.

Lemma keeps_raise {A} (e : exn) : keeps_binding (@raise A e).
Proof. intros o. apply same_binding_refl. Qed.

Lemma keeps_read {A} (f : PromptGenerator -> A) : keeps_binding (read f).
Proof. intros o. apply same_binding_refl. Qed.

Lemma keeps_attr {A} (name : string) (f : PromptGenerator -> option A) :
  keeps_binding (attr name f).
Proof. intros o. unfold attr. destruct (f o); apply same_binding_refl. Qed.

Lemma keeps_lift {A} (r : result A) : keeps_binding (lift r).
Proof. intros o. apply same_binding_refl. Qed.

Lemma keeps_assign (upd : PromptGenerator -> PromptGenerator) :
  (forall o, same_binding o (upd o)) -> keeps_binding (assign upd).
Proof. intros H o. apply H. Qed.

Lemma keeps_bind {A B} (m : M A) (k : A -> M B) :
  keeps_binding m -> (forall a, keeps_binding (k a)) -> keeps_binding (bind m k).
Proof.
  intros Hm Hk o. unfold bind. specialize (Hm o).
  destruct (m o) as [[a|e] o']; simpl in *; [|exact Hm].
  exact (same_binding_trans _ _ _ Hm (Hk a o')).
Qed.

End Stability.

Ltac keeps_step :=
  first
    [ apply keeps_bind; [|intros ?]
    | apply keeps_ret | apply keeps_raise | apply keeps_read
    | apply keeps_attr | apply keeps_lift
    | apply keeps_assign; intros ?; split; reflexivity
    | match goal with
      | |- keeps_binding (if ?b then _ else _) => destruct b
      end ].

Section StableMethods.

Lemma set_system_prompt_keeps (text : string) :
  keeps_binding (set_system_prompt text).
Proof. unfold set_system_prompt, append_turn. repeat keeps_step. Qed.

Lemma add_to_conversation_keeps (role text preprompt input : string) :
  keeps_binding (add_to_conversation role text preprompt input).
Proof.
  unfold add_to_conversation, first_llama_turn, append_turn.
  repeat first [apply set_system_prompt_keeps | keeps_step].
Qed.

Lemma clear_conversation_keeps : keeps_binding clear_conversation.
Proof. unfold clear_conversation. repeat keeps_step. Qed.

Lemma reduce_length_keeps (conv : Z) : keeps_binding (reduce_length conv).
Proof. unfold reduce_length. repeat keeps_step. Qed.

Lemma custom_template_keeps (s r u i : string) :
  keeps_binding (custom_template s r u i).
Proof. unfold custom_template. repeat keeps_step. Qed.

Lemma generate_one_shot_prompt_keeps
      (user_prompt preprompt system_prompt input : string) :
  keeps_binding (generate_one_shot_prompt user_prompt preprompt system_prompt input).
Proof. unfold generate_one_shot_prompt. repeat keeps_step. Qed.

Lemma generate_prompt_keeps : keeps_binding generate_prompt.
Proof. unfold generate_prompt. repeat keeps_step. Qed.

(** A name bound by [load_template] stays bound through the other
    methods. *)
Lemma keeps_bound {A} (m : M A) (id : string) (o : PromptGenerator) :
  keeps_binding m -> bound_to id o -> bound_to id (snd (m o)).
Proof.
  intros Hm [Hn Hl]. destruct (Hm o) as [Hn' Hl']. split; congruence.
Qed.

End StableMethods.

(** * Further properties of the methods *)

(** ** Stripping *)

Section Stripping.

Lemma rstrip_idempotent (s : string) : PyStr.rstrip (PyStr.rstrip s) = PyStr.rstrip s.
Proof.
  induction s as [|c s IH]; [reflexivity|].
  cbn [PyStr.rstrip]. destruct (PyStr.rstrip s) as [|d r] eqn:E.
  - destruct (PyStr.is_space c) eqn:Hc; [reflexivity|].
    cbn [PyStr.rstrip]. now rewrite Hc.
  - cbn [PyStr.rstrip]. cbn [PyStr.rstrip] in IH.
    destruct (PyStr.rstrip r) as [|d' r'] eqn:Er.
    + destruct (PyStr.is_space d) eqn:Hd; [discriminate IH|].
      now injection IH as ->.
    + now rewrite IH.
Qed.

Lemma lstrip_left_clean (s : string) : left_clean (PyStr.lstrip s) = true.
Proof.
  induction s as [|c s IH]; [reflexivity|].
  simpl. destruct (PyStr.is_space c) eqn:Hc; [exact IH|]. simpl. now rewrite Hc.
Qed.

Lemma left_clean_lstrip (s : string) : left_clean s = true -> PyStr.lstrip s = s.
Proof.
  destruct s as [|c s]; [reflexivity|]. simpl. intros H.
  apply negb_true_iff in H. now rewrite H.
Qed.

Lemma rstrip_left_clean (s : string) :
  left_clean s = true -> left_clean (PyStr.rstrip s) = true.
Proof.
  destruct s as [|c s]; [reflexivity|]. simpl. intros H.
  destruct (PyStr.rstrip s); [|exact H].
  apply negb_true_iff in H. rewrite H. simpl. now rewrite H.
Qed.

Lemma strip_idempotent (s : string) : PyStr.strip (PyStr.strip s) = PyStr.strip s.
Proof.
  unfold PyStr.strip.
  rewrite (left_clean_lstrip (PyStr.rstrip (PyStr.lstrip s))).
  - apply rstrip_idempotent.
  - apply rstrip_left_clean, lstrip_left_clean.
Qed.

Lemma combined_strip (preprompt text : string) :
  combined (PyStr.strip preprompt) (PyStr.strip text) = combined preprompt text.
Proof. unfold combined. now rewrite !strip_idempotent. Qed.

End Stripping.

(** ** What the library calls can raise *)

Section Raising.




Lemma join_all_str (l : list turn) :
  all_str l = true -> join l = Ok (concat_str l).
Proof.
  induction l as [|[s|r c] l IH]; simpl; intros H; try discriminate; [reflexivity|].
  now rewrite (IH H).
Qed.



End Raising.

(** ** Missing attributes *)

Section AttrSafe.









End AttrSafe.




Section AttrSafeMethods.












End AttrSafeMethods.



(** ** The bound name and the llama-2 flag *)

Section Consistency.

Lemma same_binding_consistent (o o' : PromptGenerator) :
  same_binding o o' -> binding_consistent o -> binding_consistent o'.
Proof. intros [Hn Hl]. unfold binding_consistent. now rewrite Hn, Hl. Qed.

Lemma load_template_consistent (name : string) (o : PromptGenerator) :
  binding_consistent o -> binding_consistent (snd (load_template name o)).
Proof.
  intros Ho. unfold load_template, item. run_method.
  destruct (model_templates o !! PyStr.lower name) as [entry|]; run_method;
    [|exact Ho].
  destruct (entry !! "response"); run_method; [|exact Ho].
  destruct (entry !! "user"); run_method; [|exact Ho].
  destruct (entry !! "system"); run_method; [|exact Ho].
  destruct (entry !! "input"); run_method; [|exact Ho].
  destruct (String.eqb (PyStr.lower name) "llama-2-chat") eqn:E;
    unfold binding_consistent; simpl; rewrite E; split;
    auto using lower_idempotent.
Qed.

Lemma returning_snd {A} (f : A -> value) (m : M A) (o : PromptGenerator) :
  snd (returning f m o) = snd (m o).
Proof. unfold returning, bind, ret. now destruct (m o) as [[x|e] o']. Qed.

Lemma run_call_consistent (c : call) (o : PromptGenerator) :
  binding_consistent o -> binding_consistent (snd (run_call c o)).
Proof.
  intros Ho. destruct c; unfold run_call; rewrite returning_snd;
    try (now apply load_template_consistent);
    refine (same_binding_consistent o _ _ Ho);
    first [ apply custom_template_keeps | apply set_system_prompt_keeps
          | apply add_to_conversation_keeps | apply clear_conversation_keeps
          | apply reduce_length_keeps | apply generate_one_shot_prompt_keeps
          | apply generate_prompt_keeps | apply same_binding_refl ].
Qed.

End Consistency.

(** X2: in every state that calls of the public methods reach from a
    freshly built object, [template_name] and [is_llama_2] exist together,
    the flag is true exactly when the name is "llama-2-chat", and the name
    is lower-case. *)
Theorem binding_consistent_reachable
        (name : string) (store : gmap string (gmap string string)) (cs : list call) :
  binding_consistent (run_calls cs (init name store)).
Proof.
  assert (binding_consistent (init name store)) as H by reflexivity.
  revert H. generalize (init name store) as o.
  induction cs as [|c cs IH]; intros o Ho; [exact Ho|].
  simpl. apply IH. now apply run_call_consistent.
Qed.

(** ** Selecting a template *)

(** X3: the name given to [load_template] is case-insensitive: the call
    behaves as the call on the lower-cased name, in result and in effect. *)
Theorem load_template_case_insensitive (name : string) (o : PromptGenerator) :
  load_template name o = load_template (PyStr.lower name) o.
Proof. unfold load_template. now rewrite lower_idempotent. Qed.

(** X4: [load_template] succeeds exactly when the store has the lower-cased
    name and its entry has the four keys; it then replaces the four
    sub-templates, the name and the flag together and leaves the model
    name, the store, the conversation and the system text alone. *)
Theorem load_template_succeeds_iff (name : string) (o o' : PromptGenerator) :
  load_template name o = (Ok tt, o') <->
  exists entry r u s i,
    model_templates o !! PyStr.lower name = Some entry /\
    entry !! "response" = Some r /\ entry !! "user" = Some u /\
    entry !! "system" = Some s /\ entry !! "input" = Some i /\
    o' = mkPG (model_name o) (model_templates o) (conversation o) (system_text o)
              (Some r) (Some u) (Some s) (Some i) (Some (PyStr.lower name))
              (Some (String.eqb (PyStr.lower name) "llama-2-chat")).
Proof.
  split.
  - unfold load_template, item. run_method.
    destruct (model_templates o !! PyStr.lower name) as [entry|]; run_method;
      [|discriminate].
    destruct (entry !! "response") as [r|] eqn:Hr; run_method; [|discriminate].
    destruct (entry !! "user") as [u|] eqn:Hu; run_method; [|discriminate].
    destruct (entry !! "system") as [s|] eqn:Hs; run_method; [|discriminate].
    destruct (entry !! "input") as [i|] eqn:Hi; run_method; [|discriminate].
    intros H. exists entry, r, u, s, i. repeat split; try assumption.
    destruct (String.eqb (PyStr.lower name) "llama-2-chat"); now injection H as <-.
  - intros (entry & r & u & s & i & He & Hr & Hu & Hs & Hi & ->).
    exact (load_template_ok o name r u s i entry He Hr Hu Hs Hi).
Qed.

(** X5: an entry that lacks a key is bound in part.  With "response" and
    "user" present and "system" missing, [load_template] raises [KeyError]
    for "system" after it has replaced the response and user
    sub-templates; the system and input sub-templates, the name and the
    flag stay as they were. *)
Theorem load_template_partial_bind
        (name r u : string) (entry : gmap string string) (o : PromptGenerator) :
  model_templates o !! PyStr.lower name = Some entry ->
  entry !! "response" = Some r ->
  entry !! "user" = Some u ->
  entry !! "system" = None ->
  load_template name o
  = (Raise (KeyError "system"),
     mkPG (model_name o) (model_templates o) (conversation o) (system_text o)
          (Some r) (Some u) (system_prompt_helper o) (input_prompt_helper o)
          (template_name o) (is_llama_2 o)).
Proof.
  intros He Hr Hu Hs. unfold load_template, item. run_method.
  rewrite He. run_method. now rewrite Hr, Hu, Hs.
Qed.

Lemma load_template_partial_bind_witness :
  let o := snd (load_template "vicuna" (init "gpt2" broken_store)) in
  fst (load_template "Broken" o) = Raise (KeyError "system") /\
  user_prompt_helper (snd (load_template "Broken" o)) = Some "{prompt}" /\
  system_prompt_helper (snd (load_template "Broken" o)) = Some vicuna_system /\
  template_name (snd (load_template "Broken" o)) = Some "vicuna".
Proof.
  cbv zeta.
  rewrite (load_template_partial_bind "Broken" "{response}" "{prompt}"
             {[ "response" := "{response}"; "user" := "{prompt}" ]}
             (snd (load_template "vicuna" (init "gpt2" broken_store))));
    try (vm_compute; reflexivity).
  repeat split.
Defined.

(** X6: whatever its outcome, [load_template] leaves the conversation, the
    system text, the model name and the store as they were: turns rendered
    under an earlier template stay in the conversation as rendered. *)
Theorem load_template_keeps_conversation (name : string) (o : PromptGenerator) :
  let o' := snd (load_template name o) in
  conversation o' = conversation o /\ system_text o' = system_text o /\
  model_name o' = model_name o /\ model_templates o' = model_templates o.
Proof.
  cbv zeta. unfold load_template, item. run_method.
  destruct (model_templates o !! PyStr.lower name) as [entry|]; run_method;
    [|repeat split].
  destruct (entry !! "response"); run_method; [|repeat split].
  destruct (entry !! "user"); run_method; [|repeat split].
  destruct (entry !! "system"); run_method; [|repeat split].
  destruct (entry !! "input"); run_method; [|repeat split].
  destruct (String.eqb (PyStr.lower name) "llama-2-chat"); repeat split.
Qed.

(** ** The system prompt *)

Lemma set_system_prompt_outcome (text : string) (o : PromptGenerator) :
  system_text (snd (set_system_prompt text o)) = text /\
  match fst (set_system_prompt text o) with
  | Ok _ => length (conversation (snd (set_system_prompt text o))) = 1
  | Raise _ => conversation (snd (set_system_prompt text o)) = []
  end.
Proof.
  unfold set_system_prompt. run_method.
  destruct (template_name o) as [id|]; simpl; [|split; reflexivity].
  destruct (String.eqb id "openai"); run_method;
    (destruct (system_prompt_helper o) as [hs|]; simpl; [|split; reflexivity]).
  - split; reflexivity.
  - destruct (PyFormat.format hs _); split; reflexivity.
Qed.

(** X7: [set_system_prompt] always stores the text as given in
    [system_text] and discards the previous conversation.  When it returns,
    the conversation is one element long; when it raises (a missing
    attribute, a system sub-template that does not render), the
    conversation is left empty. *)
Theorem set_system_prompt_resets (text : string) (o : PromptGenerator) :
  let o' := snd (set_system_prompt text o) in
  system_text o' = text /\
  match fst (set_system_prompt text o) with
  | Ok _ => length (conversation o') = 1
  | Raise _ => conversation o' = []
  end.
Proof. exact (set_system_prompt_outcome text o). Qed.

(** X8: what the single element is.  Under the name "openai" it is the
    dict of the system sub-template (as role) and the text as given, not
    stripped and not formatted; under any other name it is the system
    sub-template formatted with the stripped text. *)
Theorem set_system_prompt_renders (id hs text : string) (o : PromptGenerator) :
  template_name o = Some id ->
  system_prompt_helper o = Some hs ->
  (id = "openai" ->
   conversation (snd (set_system_prompt text o)) = [TDict hs text]) /\
  (id <> "openai" ->
   forall r, PyFormat.format hs [("system", PyStr.strip text)] = Ok r ->
     fst (set_system_prompt text o) = Ok tt /\
     conversation (snd (set_system_prompt text o)) = [TStr r]).
Proof.
  intros Hn Hs. unfold set_system_prompt. run_method. rewrite Hn. simpl.
  split.
  - intros ->. simpl. now rewrite Hs.
  - intros Hne r Hr. apply String.eqb_neq in Hne. rewrite Hne. run_method.
    rewrite Hs. simpl. rewrite Hr. split; reflexivity.
Qed.

Lemma set_system_prompt_renders_witness :
  conversation (snd (set_system_prompt " X " openai_started)) = [TDict "system" " X "] /\
  conversation (snd (set_system_prompt " X " vicuna_started)) = [TStr ("X" ++ LF)].
Proof.
  split.
  - refine (proj1 (set_system_prompt_renders "openai" "system" " X " openai_started _ _) _);
      reflexivity.
  - refine (proj2 (proj2 (set_system_prompt_renders "vicuna" vicuna_system " X "
                            vicuna_started _ _) _ ("X" ++ LF) _));
      try reflexivity; discriminate.
Defined.

(** X9: a turn with the role "system", in any capitalisation, is not
    appended: it replaces the conversation as [set_system_prompt] does, with
    the stripped preprompt and text joined as the new system text. *)
Theorem add_system_turn_resets (role text preprompt input : string) (o : PromptGenerator) :
  PyStr.lower role = "system" ->
  input = "" ->
  let o' := snd (add_to_conversation role text preprompt input o) in
  system_text o' = PyStr.strip preprompt ++ PyStr.strip text /\
  match fst (add_to_conversation role text preprompt input o) with
  | Ok _ => length (conversation o') = 1
  | Raise _ => conversation o' = []
  end.
Proof.
  intros Hrole ->. cbv zeta.
  assert (add_to_conversation role text preprompt "" o
          = set_system_prompt (combined preprompt text) o) as ->.
  { unfold add_to_conversation, input_misused. simpl PyStr.truthy.
    now rewrite andb_false_r, Hrole. }
  exact (set_system_prompt_outcome (combined preprompt text) o).
Qed.

Lemma add_system_turn_resets_witness :
  system_text (snd (add_to_conversation "System" " be kind " "Please" "" vicuna_two_exchanges))
  = "Pleasebe kind" /\
  length (conversation
            (snd (add_to_conversation "System" " be kind " "Please" "" vicuna_two_exchanges)))
  = 1.
Proof.
  exact (add_system_turn_resets "System" " be kind " "Please" "" vicuna_two_exchanges
           eq_refl eq_refl).
Defined.

(** ** User and model turns *)

Section Appending.

Lemma reads_only_ret {A} (x : A) : reads_only (ret x).
Proof. intros o. reflexivity. Qed.

Lemma reads_only_read {A} (f : PromptGenerator -> A) : reads_only (read f).
Proof. intros o. reflexivity. Qed.

Lemma reads_only_attr {A} (name : string) (f : PromptGenerator -> option A) :
  reads_only (attr name f).
Proof. intros o. unfold attr. now destruct (f o). Qed.

Lemma reads_only_lift {A} (r : result A) : reads_only (lift r).
Proof. intros o. reflexivity. Qed.

Lemma reads_only_bind {A B} (m : M A) (k : A -> M B) :
  reads_only m -> (forall x, reads_only (k x)) -> reads_only (bind m k).
Proof.
  intros Hm Hk o. unfold bind. specialize (Hm o).
  destruct (m o) as [[x|e] o']; simpl in *; subst; [apply Hk | reflexivity].
Qed.

Lemma first_llama_turn_reads_only : reads_only first_llama_turn.
Proof.
  unfold first_llama_turn. apply reads_only_bind; [apply reads_only_read|].
  intros conv. destruct (Nat.eqb (length conv) 1);
    [apply reads_only_attr | apply reads_only_ret].
Qed.

Lemma appends_or_raises_append (x : turn) : appends_or_raises (append_turn x).
Proof. intros o. left. now exists x. Qed.

Lemma appends_or_raises_bind {A} (m : M A) (k : A -> M unit) :
  reads_only m -> (forall x, appends_or_raises (k x)) -> appends_or_raises (bind m k).
Proof.
  intros Hm Hk o. unfold bind. specialize (Hm o).
  destruct (m o) as [[x|e] o']; simpl in Hm; subst; [apply Hk|].
  right. now exists e.
Qed.

End Appending.

Ltac appends_step :=
  first
    [ apply appends_or_raises_append
    | apply appends_or_raises_bind;
      [ first [ apply first_llama_turn_reads_only | apply reads_only_attr
              | apply reads_only_read | apply reads_only_lift ]
      | intros ? ]
    | match goal with
      | |- appends_or_raises (if ?b then _ else _) => destruct b
      end ].

Lemma add_turn_appends_or_raises (role text preprompt input : string)
      (o : PromptGenerator) :
  PyStr.lower role = "user" \/ PyStr.lower role = "model" ->
  (exists x, add_to_conversation role text preprompt input o = (Ok tt, appended x o)) \/
  (exists e, add_to_conversation role text preprompt input o = (Raise e, o)).
Proof.
  intros Hrole. unfold add_to_conversation.
  destruct (input_misused role input); [right; eexists; reflexivity|].
  destruct Hrole as [-> | ->]; cbn [String.eqb Ascii.eqb Bool.eqb];
    match goal with
    | |- (exists x, ?m o = _) \/ _ =>
        cut (appends_or_raises m); [intros H; exact (H o)|]
    end;
    repeat appends_step.
Qed.

(** X10: a user or model turn is all or nothing.  The call either returns
    after appending exactly one element to the conversation, every other
    attribute untouched, or raises and leaves the object exactly as it
    was. *)
Theorem add_turn_all_or_nothing (role text preprompt input : string) (o : PromptGenerator) :
  PyStr.lower role = "user" \/ PyStr.lower role = "model" ->
  (exists x, add_to_conversation role text preprompt input o = (Ok tt, appended x o)) \/
  (exists e, add_to_conversation role text preprompt input o = (Raise e, o)).
Proof. exact (add_turn_appends_or_raises role text preprompt input o). Qed.

Lemma add_turn_all_or_nothing_witness :
  (exists x, add_to_conversation "Model" "Hello!" "" "" vicuna_started
             = (Ok tt, appended x vicuna_started)) \/
  (exists e, add_to_conversation "Model" "Hello!" "" "" vicuna_started
             = (Raise e, vicuna_started)).
Proof.
  apply (add_turn_all_or_nothing "Model" "Hello!" "" "" vicuna_started).
  right. reflexivity.
Defined.

(** X11: white space around the text and around the preprompt never
    matters, for any role: the call on the stripped arguments is the call
    on the arguments as given. *)
Theorem add_to_conversation_strips (role text preprompt input : string)
        (o : PromptGenerator) :
  add_to_conversation role (PyStr.strip text) (PyStr.strip preprompt) input o
  = add_to_conversation role text preprompt input o.
Proof. unfold add_to_conversation. now rewrite combined_strip. Qed.

(** ** The "openai" template *)

Section OpenAI.

Variable o : PromptGenerator.
Hypothesis Hbound : bound_to "openai" o.

Lemma openai_not_first_llama : not_first_llama o.
Proof. right. now destruct Hbound as [_ ->]. Qed.

Lemma openai_user_turn (hu role text preprompt input : string) :
  user_prompt_helper o = Some hu ->
  PyStr.lower role = "user" ->
  input_misused role input = false ->
  add_to_conversation role text preprompt input o
  = (Ok tt, appended (TDict hu (combined preprompt text)) o).
Proof.
  intros Hu Hrole Hguard. destruct Hbound as [Hn _]. unfold add_to_conversation.
  rewrite Hguard, Hrole. cbn [String.eqb Ascii.eqb Bool.eqb].
  rewrite (bind_ok _ _ _ _ _ (first_llama_turn_false o openai_not_first_llama)).
  run_method. rewrite Hn. simpl. now rewrite Hu.
Qed.

Lemma openai_model_turn (hm role text preprompt : string) :
  model_prompt_helper o = Some hm ->
  PyStr.lower role = "model" ->
  add_to_conversation role text preprompt "" o
  = (Ok tt, appended (TDict hm (combined preprompt text)) o).
Proof.
  intros Hm Hrole. destruct Hbound as [Hn _].
  unfold add_to_conversation, input_misused. simpl PyStr.truthy.
  rewrite andb_false_r, Hrole. cbn [String.eqb Ascii.eqb Bool.eqb].
  run_method. rewrite Hn. simpl. now rewrite Hm.
Qed.

End OpenAI.

(** X12: under the name "openai" a user or model turn is never formatted.
    The element appended is the dict whose role is the user (or response)
    sub-template as it is and whose content is the stripped preprompt and
    text joined; for a user turn the [input] argument is dropped. *)
Theorem openai_turns_are_dicts
        (o : PromptGenerator) (hu hm text preprompt input : string) :
  bound_to "openai" o ->
  user_prompt_helper o = Some hu ->
  model_prompt_helper o = Some hm ->
  add_to_conversation "user" text preprompt input o
  = (Ok tt, appended (TDict hu (PyStr.strip preprompt ++ PyStr.strip text)) o) /\
  add_to_conversation "model" text preprompt "" o
  = (Ok tt, appended (TDict hm (PyStr.strip preprompt ++ PyStr.strip text)) o).
Proof.
  intros Hb Hu Hm. split.
  - apply (openai_user_turn o Hb hu "user" text preprompt input Hu eq_refl).
    reflexivity.
  - exact (openai_model_turn o Hb hm "model" text preprompt Hm eq_refl).
Qed.

Lemma openai_turns_are_dicts_witness :
  add_to_conversation "user" " Y " "" "ignored" openai_started
  = (Ok tt, appended (TDict "user" "Y") openai_started).
Proof.
  refine (proj1 (openai_turns_are_dicts openai_started "user" "assistant"
                   " Y " "" "ignored" _ _ _)); try reflexivity.
  split; reflexivity.
Defined.

(** X13 (structured conversation): under the name "openai", a system
    prompt, a user turn and a model turn give, through [generate_prompt],
    the list of three dicts in order.  The system content is the text as
    given; the user and model contents are stripped. *)
Theorem openai_conversation
        (o : PromptGenerator) (hs hu hm x y z : string) :
  bound_to "openai" o ->
  system_prompt_helper o = Some hs ->
  user_prompt_helper o = Some hu ->
  model_prompt_helper o = Some hm ->
  fst ((set_system_prompt x ;;;
        add_to_conversation "user" y "" "" ;;;
        add_to_conversation "model" z "" "" ;;;
        generate_prompt) o)
  = Ok (PromptList [TDict hs x; TDict hu (PyStr.strip y); TDict hm (PyStr.strip z)]).
Proof.
  intros [Hn Hl] Hs Hu Hm.
  assert (set_system_prompt x o
          = (Ok tt, set_conversation [TDict hs x]
                      (set_system_text x (set_conversation [] o)))) as H1.
  { unfold set_system_prompt. run_method. rewrite Hn. simpl. now rewrite Hs. }
  rewrite (bind_ok _ _ _ _ _ H1).
  set (o1 := set_conversation [TDict hs x] (set_system_text x (set_conversation [] o))).
  assert (bound_to "openai" o1) as Hb1 by (split; assumption).
  rewrite (bind_ok _ _ _ _ _
             (openai_user_turn o1 Hb1 hu "user" y "" "" Hu eq_refl eq_refl)).
  set (o2 := appended (TDict hu (combined "" y)) o1).
  assert (bound_to "openai" o2) as Hb2 by (split; assumption).
  rewrite (bind_ok _ _ _ _ _
             (openai_model_turn o2 Hb2 hm "model" z "" Hm eq_refl)).
  unfold generate_prompt. run_method. now rewrite Hn.
Qed.

Lemma openai_conversation_witness :
  fst ((set_system_prompt "X" ;;;
        add_to_conversation "user" "Y" "" "" ;;;
        add_to_conversation "model" "Z" "" "" ;;;
        generate_prompt) openai_started)
  = Ok (PromptList [TDict "system" "X"; TDict "user" "Y"; TDict "assistant" "Z"]).
Proof.
  apply (openai_conversation openai_started "system" "user" "assistant" "X" "Y" "Z");
    try reflexivity.
  split; reflexivity.
Defined.

(** ** Rendering the conversation *)

(** X14: under a name other than "openai", a conversation of rendered
    strings is returned by [generate_prompt] as their concatenation,
    stripped, and the object is not modified. *)
Theorem generate_prompt_joins (id : string) (o : PromptGenerator) :
  template_name o = Some id ->
  id <> "openai" ->
  all_str (conversation o) = true ->
  generate_prompt o = (Ok (PromptStr (PyStr.strip (concat_str (conversation o)))), o).
Proof.
  intros Hn Hne Hall. apply String.eqb_neq in Hne.
  unfold generate_prompt. run_method. rewrite Hn, Hne. simpl.
  now rewrite (join_all_str _ Hall).
Qed.

Lemma generate_prompt_joins_witness :
  generate_prompt vicuna_two_exchanges
  = (Ok (PromptStr ("You are helpful." ++ LF ++ "USER: Hi" ++ LF ++ "ASSISTANT: Hello!</s>"
                    ++ "USER: More" ++ LF ++ "ASSISTANT: Sure.</s>")),
     vicuna_two_exchanges).
Proof.
  apply (generate_prompt_joins "vicuna" vicuna_two_exchanges); try reflexivity.
  discriminate.
Defined.



(** ** A session under one template *)

Section StringsOnly.

Variable id : string.
Hypothesis Hid : String.eqb id "openai" = false.

Lemma all_str_app (l1 l2 : list turn) :
  all_str (l1 ++ l2)%list = all_str l1 && all_str l2.
Proof. apply forallb_app. Qed.

Lemma all_str_take (n : nat) (l : list turn) :
  all_str l = true -> all_str (take n l) = true.
Proof.
  revert n. induction l as [|x l IH]; intros [|n]; simpl; try reflexivity.
  intros H. apply andb_prop in H as [-> H]. simpl. now apply IH.
Qed.

Lemma all_str_drop (n : nat) (l : list turn) :
  all_str l = true -> all_str (drop n l) = true.
Proof.
  revert n. induction l as [|x l IH]; intros [|n]; simpl; try reflexivity; try easy.
  intros H. apply andb_prop in H as [_ H]. now apply IH.
Qed.

Lemma keeps_strs_ret {A} (x : A) : keeps_strs id (ret x).
Proof. intros o Ho. exact Ho. Qed.

Lemma keeps_strs_raise {A} (e : exn) : keeps_strs id (@raise A e).
Proof. intros o Ho. exact Ho. Qed.

Lemma keeps_strs_read {A} (f : PromptGenerator -> A) : keeps_strs id (read f).
Proof. intros o Ho. exact Ho. Qed.

Lemma keeps_strs_lift {A} (r : result A) : keeps_strs id (lift r).
Proof. intros o Ho. exact Ho. Qed.

Lemma keeps_strs_attr {A} (name : string) (f : PromptGenerator -> option A) :
  keeps_strs id (attr name f).
Proof. intros o Ho. unfold attr. now destruct (f o). Qed.

Lemma keeps_strs_assign (upd : PromptGenerator -> PromptGenerator) :
  (forall o, strs_under id o -> strs_under id (upd o)) -> keeps_strs id (assign upd).
Proof. intros H o Ho. exact (H o Ho). Qed.

Lemma keeps_strs_bind {A B} (m : M A) (k : A -> M B) :
  keeps_strs id m -> (forall x, keeps_strs id (k x)) -> keeps_strs id (bind m k).
Proof.
  intros Hm Hk o Ho. unfold bind. specialize (Hm o Ho).
  destruct (m o) as [[x|e] o']; simpl in *; [exact (Hk x o' Hm) | exact Hm].
Qed.

(** Reading the name gives [id]. *)
Lemma keeps_strs_bind_name {B} (k : string -> M B) :
  keeps_strs id (k id) ->
  keeps_strs id (bind (attr "template_name" template_name) k).
Proof.
  intros Hk o Ho. unfold bind, attr. destruct Ho as [Hn Hall]. rewrite Hn.
  apply Hk. now split.
Qed.

Lemma keeps_strs_append (s : string) : keeps_strs id (append_turn (TStr s)).
Proof.
  intros o [Hn Hall]. split; [exact Hn|]. simpl.
  rewrite all_str_app, Hall. reflexivity.
Qed.

End StringsOnly.

Ltac strs_kept :=
  let o := fresh "o" in
  let Hn := fresh "Hn" in
  let Hall := fresh "Hall" in
  intros o [Hn Hall]; split; [exact Hn|]; simpl;
  rewrite ?all_str_app; auto using all_str_take, all_str_drop, andb_true_intro.

Ltac keeps_strs_step Hid :=
  first
    [ apply (keeps_strs_bind_name _ ); rewrite Hid
    | apply keeps_strs_bind; [|intros ?]
    | apply keeps_strs_ret | apply keeps_strs_raise | apply keeps_strs_read
    | apply keeps_strs_attr | apply keeps_strs_lift
    | apply keeps_strs_append
    | apply keeps_strs_assign; strs_kept
    | match goal with
      | |- keeps_strs _ (if ?b then _ else _) => destruct b
      end ].

Section StringsOnlyMethods.

Variable id : string.
Hypothesis Hid : String.eqb id "openai" = false.

Lemma set_system_prompt_keeps_strs (text : string) :
  keeps_strs id (set_system_prompt text).
Proof. unfold set_system_prompt. repeat keeps_strs_step Hid. Qed.

Lemma add_to_conversation_keeps_strs (role text preprompt input : string) :
  keeps_strs id (add_to_conversation role text preprompt input).
Proof.
  unfold add_to_conversation, first_llama_turn.
  repeat first [apply set_system_prompt_keeps_strs | keeps_strs_step Hid].
Qed.

Lemma reduce_length_keeps_strs (conv : Z) : keeps_strs id (reduce_length conv).
Proof.
  unfold reduce_length. apply keeps_strs_assign.
  intros o [Hn Hall]. split; [exact Hn|]. simpl. unfold reduced, slice_from.
  rewrite all_str_app, all_str_take, all_str_drop; auto.
Qed.

Lemma run_call_keeps_strs (c : call) :
  keeps_template c = true -> keeps_strs id (run_call c).
Proof.
  destruct c; simpl; intros Hc; try discriminate;
    unfold run_call, returning, len;
    (apply keeps_strs_bind; [|intros ?; apply keeps_strs_ret]);
    first [ apply set_system_prompt_keeps_strs
          | apply add_to_conversation_keeps_strs
          | apply reduce_length_keeps_strs
          | unfold custom_template, clear_conversation, generate_one_shot_prompt,
              generate_prompt; repeat keeps_strs_step Hid ].
Qed.

Lemma run_calls_keeps_strs (cs : list call) (o : PromptGenerator) :
  forallb keeps_template cs = true -> strs_under id o -> strs_under id (run_calls cs o).
Proof.
  revert o. induction cs as [|c cs IH]; intros o Hcs Ho; [exact Ho|].
  simpl in Hcs. apply andb_prop in Hcs as [Hc Hcs].
  simpl. apply IH; [exact Hcs|]. exact (run_call_keeps_strs c Hc o Ho).
Qed.

End StringsOnlyMethods.

(** X16: under one template other than "openai", the conversation only
    ever holds rendered strings.  Whatever calls other than
    [load_template] are made, failed ones included, [generate_prompt]
    afterwards returns the stripped concatenation of the conversation: it
    raises nothing. *)
Theorem single_template_session_renders
        (id : string) (o : PromptGenerator) (cs : list call) :
  template_name o = Some id ->
  id <> "openai" ->
  all_str (conversation o) = true ->
  forallb keeps_template cs = true ->
  fst (generate_prompt (run_calls cs o))
  = Ok (PromptStr (PyStr.strip (concat_str (conversation (run_calls cs o))))).
Proof.
  intros Hn Hne Hall Hcs. apply String.eqb_neq in Hne.
  destruct (run_calls_keeps_strs id Hne cs o Hcs (conj Hn Hall)) as [Hn' Hall'].
  unfold generate_prompt. run_method. rewrite Hn', Hne. simpl.
  now rewrite (join_all_str _ Hall').
Qed.

Lemma single_template_session_renders_witness :
  fst (generate_prompt
         (run_calls [CSetSystemPrompt "S"; CAddToConversation "user" "Hi" "" "";
                     CAddToConversation "tool" "x" "" ""; CReduceLength 1;
                     CCustomTemplate "{system}" "{response}" "{prompt}" "";
                     CAddToConversation "model" "Yo" "" ""]
                    (snd (load_template "vicuna" (init "gpt2" vicuna_store)))))
  = Ok (PromptStr ("S" ++ LF ++ "USER: Hi" ++ LF ++ "ASSISTANT:Yo")).
Proof.
  apply (single_template_session_renders "vicuna"
           (snd (load_template "vicuna" (init "gpt2" vicuna_store)))); try reflexivity.
  discriminate.
Defined.

(** ** Clearing the conversation *)

Section Clearing.

(** A turn with a role other than "system" leaves the object as it is or
    appends one element. *)
Lemma chat_turn_outcome (role text preprompt input : string) (o : PromptGenerator) :
  String.eqb (PyStr.lower role) "system" = false ->
  snd (add_to_conversation role text preprompt input o) = o \/
  exists x, snd (add_to_conversation role text preprompt input o) = appended x o.
Proof.
  intros Hs.
  destruct (String.eqb (PyStr.lower role) "user") eqn:Hu;
    [|destruct (String.eqb (PyStr.lower role) "model") eqn:Hm].
  - apply String.eqb_eq in Hu.
    destruct (add_turn_appends_or_raises role text preprompt input o (or_introl Hu))
      as [[x ->] | [e ->]]; [right; now exists x | now left].
  - apply String.eqb_eq in Hm.
    destruct (add_turn_appends_or_raises role text preprompt input o (or_intror Hm))
      as [[x ->] | [e ->]]; [right; now exists x | now left].
  - left. unfold add_to_conversation. rewrite Hs, Hu, Hm.
    now destruct (input_misused role input).
Qed.

Lemma run_calls_cons (c : call) (cs : list call) (o : PromptGenerator) :
  run_calls (c :: cs) o = run_calls cs (snd (run_call c o)).
Proof. reflexivity. Qed.

Lemma chat_turns_keep_first (cs : list call) (o : PromptGenerator) (s : turn)
      (rest : list turn) :
  forallb is_chat_turn cs = true ->
  conversation o = s :: rest ->
  exists rest', conversation (run_calls cs o) = s :: rest'.
Proof.
  revert o rest. induction cs as [|c cs IH]; intros o rest Hcs Ho; [now exists rest|].
  simpl in Hcs. apply andb_prop in Hcs as [Hc Hcs].
  destruct c; try discriminate. simpl in Hc. apply negb_true_iff in Hc.
  rewrite run_calls_cons. unfold run_call. rewrite returning_snd.
  destruct (chat_turn_outcome role text preprompt input o Hc) as [-> | [x ->]].
  - exact (IH o rest Hcs Ho).
  - apply (IH (appended x o) (rest ++ [x])%list Hcs). simpl. now rewrite Ho.
Qed.

End Clearing.

(** X17: [clear_conversation] undoes the chat.  From a conversation that
    starts with the system message, after any number of turns with roles
    other than "system" (failed ones included), clearing leaves the system
    message alone. *)
Theorem clear_conversation_undoes_turns
        (cs : list call) (o : PromptGenerator) (s : turn) (rest : list turn) :
  forallb is_chat_turn cs = true ->
  conversation o = s :: rest ->
  conversation (snd (clear_conversation (run_calls cs o))) = [s].
Proof.
  intros Hcs Ho. destruct (chat_turns_keep_first cs o s rest Hcs Ho) as [rest' H].
  simpl. now rewrite H.
Qed.

Lemma clear_conversation_undoes_turns_witness :
  conversation
    (snd (clear_conversation
            (run_calls [CAddToConversation "user" "Hi" "" "";
                        CAddToConversation "Model" "Hello!" "" "";
                        CAddToConversation "model" "oops" "" "x"]
                       vicuna_started)))
  = [TStr ("You are helpful." ++ LF)].
Proof.
  apply (clear_conversation_undoes_turns _ vicuna_started _ []); reflexivity.
Defined.

(** X18: after [clear_conversation] the llama-2 rule for the first user
    turn applies again: on a non-empty conversation under "llama-2-chat",
    the user turn that follows a clear loses the marker like the very
    first one. *)
Theorem clear_then_first_user_turn
        (o : PromptGenerator) (u text preprompt r : string) :
  bound_to "llama-2-chat" o ->
  user_prompt_helper o = Some u ->
  conversation o <> [] ->
  PyFormat.format u [("prompt", combined preprompt text)] = Ok r ->
  add_to_conversation "user" text preprompt "" (snd (clear_conversation o))
  = (Ok tt, appended (TStr (PyStr.replace r " [INST]" "")) (snd (clear_conversation o))).
Proof.
  intros Hb Hu Hne Hr.
  rewrite (add_user_first_llama (snd (clear_conversation o)) "user" text preprompt ""
             eq_refl eq_refl u).
  - unfold append_rendered. now rewrite Hr.
  - simpl. destruct (conversation o); [contradiction | reflexivity].
  - exact (llama2_flag_on o Hb).
  - exact Hu.
Qed.

Lemma clear_then_first_user_turn_witness :
  add_to_conversation "user" "Again" "" "" (snd (clear_conversation llama2_after_exchange))
  = (Ok tt, appended (TStr " Again [/INST]") (snd (clear_conversation llama2_after_exchange))).
Proof.
  apply (clear_then_first_user_turn llama2_after_exchange llama2_user "Again" ""
           " [INST] Again [/INST]"); try reflexivity.
  - split; reflexivity.
  - discriminate.
Defined.

(** ** Reducing the history, in general *)

Section ReducingMore.

Lemma reduced_long (k : Z) (l : list turn) :
  (1 <= k)%Z -> (k * 2 <= Z.of_nat (length l))%Z ->
  reduced k l = (take 1 l ++ drop (length l - Z.to_nat (k * 2 - 1)) l)%list.
Proof.
  intros Hk Hn. unfold reduced, slice_from.
  destruct (Z.ltb_spec (Z.of_nat (length l)) (k * 2 - 1)%Z) as [Hlt|_]; [lia|].
  destruct (Z.ltb_spec (- (k * 2 - 1))%Z 0%Z) as [_|Hge]; [|lia].
  do 2 f_equal. lia.
Qed.

Lemma reduced_long_length (k : Z) (l : list turn) :
  (1 <= k)%Z -> (k * 2 <= Z.of_nat (length l))%Z ->
  length (reduced k l) = Z.to_nat (k * 2).
Proof.
  intros Hk Hn. rewrite (reduced_long k l Hk Hn).
  rewrite length_app, length_take, length_drop. lia.
Qed.

Lemma reduced_nonpositive (k : Z) (l : list turn) :
  (k <= 0)%Z -> reduced k l = (take 1 l ++ drop (Z.to_nat (1 - k * 2)) l)%list.
Proof.
  intros Hk. unfold reduced, slice_from.
  destruct (Z.ltb_spec (Z.of_nat (length l)) (k * 2 - 1)%Z) as [Hlt|_]; [lia|].
  destruct (Z.ltb_spec (- (k * 2 - 1))%Z 0%Z) as [Hlt|_]; [lia|].
  f_equal.
  destruct (Z.le_ge_cases (- (k * 2 - 1))%Z (Z.of_nat (length l))) as [Hle|Hge].
  - f_equal. lia.
  - rewrite !drop_ge by lia. reflexivity.
Qed.

Lemma reduced_zero (l : list turn) : reduced 0 l = l.
Proof. rewrite reduced_nonpositive by lia. apply take_drop. Qed.

Lemma reduced_idempotent (k : Z) (l : list turn) :
  (0 <= k)%Z -> reduced k (reduced k l) = reduced k l.
Proof.
  intros Hk.
  destruct (Z.eq_dec k 0%Z) as [->|Hk0]; [now rewrite !reduced_zero|].
  destruct (Z.le_gt_cases (Z.of_nat (length l)) (k * 2)%Z) as [Hin|Hout].
  - apply reduced_idempotent_in_window. lia.
  - apply reduced_fits; rewrite (reduced_long_length k l) by lia; lia.
Qed.

(** The stored list is the first element followed by a suffix. *)
Lemma reduced_shape (k : Z) (l : list turn) :
  exists m, reduced k l = (take 1 l ++ drop m l)%list.
Proof. unfold reduced, slice_from. eexists. reflexivity. Qed.

Lemma In_take {A} (x : A) (n : nat) (l : list A) : In x (take n l) -> In x l.
Proof.
  revert n. induction l as [|y l IH]; intros [|n]; simpl; try tauto.
  intros [->|H]; [now left | right; eauto].
Qed.

Lemma In_drop {A} (x : A) (n : nat) (l : list A) : In x (drop n l) -> In x l.
Proof.
  revert n. induction l as [|y l IH]; intros [|n]; simpl; try tauto.
  intros H. right. eauto.
Qed.

Lemma reduced_length_bound (k : Z) (l : list turn) :
  (1 <= k)%Z -> length (reduced k l) <= Z.to_nat (k * 2).
Proof.
  intros Hk.
  destruct (Z.le_gt_cases (k * 2)%Z (Z.of_nat (length l))) as [Hlong|Hshort].
  - rewrite (reduced_long_length k l Hk Hlong). lia.
  - destruct (Z.eq_dec (Z.of_nat (length l)) (k * 2 - 1)%Z) as [Hb|Hb].
    + rewrite (reduced_boundary k l Hb), length_app, length_take. lia.
    + destruct (Nat.eq_dec (length l) 1) as [H1|H1].
      * destruct l as [|s [|y l]]; try discriminate.
        rewrite (reduced_single k s) by (simpl in Hb; lia). simpl. lia.
      * rewrite (reduced_fits k l H1) by lia. lia.
Qed.

End ReducingMore.

(** X19: on a conversation of at least [conv*2] elements, with
    [conv >= 1], [reduce_length] keeps the first element and the last
    [conv*2 - 1], [conv*2] elements in all. *)
Theorem reduce_length_keeps_recent (conv : Z) (o : PromptGenerator) :
  (1 <= conv)%Z ->
  (conv * 2 <= Z.of_nat (length (conversation o)))%Z ->
  let l := conversation o in
  let l' := conversation (snd (reduce_length conv o)) in
  l' = (take 1 l ++ drop (length l - Z.to_nat (conv * 2 - 1)) l)%list /\
  length l' = Z.to_nat (conv * 2).
Proof.
  intros Hk Hn. cbv zeta. simpl. split.
  - exact (reduced_long conv _ Hk Hn).
  - exact (reduced_long_length conv _ Hk Hn).
Qed.

Lemma reduce_length_keeps_recent_witness :
  conversation (snd (reduce_length 2 vicuna_two_exchanges))
  = [TStr ("You are helpful." ++ LF);
     TStr " Hello!</s>";
     TStr ("USER: More" ++ LF ++ "ASSISTANT:");
     TStr " Sure.</s>"].
Proof.
  refine (proj1 (reduce_length_keeps_recent 2 vicuna_two_exchanges _ _));
    vm_compute; discriminate.
Defined.

(** X20: for [conv >= 0], calling [reduce_length] a second time with the
    same argument changes nothing, on any conversation; with [conv = 0]
    even the first call changes nothing. *)
Theorem reduce_length_idempotent (conv : Z) (o : PromptGenerator) :
  (0 <= conv)%Z ->
  snd (reduce_length conv (snd (reduce_length conv o))) = snd (reduce_length conv o) /\
  (conv = 0%Z -> snd (reduce_length conv o) = o).
Proof.
  intros Hk. split.
  - simpl. unfold set_conversation. simpl. now rewrite (reduced_idempotent conv _ Hk).
  - intros ->. simpl. rewrite reduced_zero. now destruct o.
Qed.

Lemma reduce_length_idempotent_witness :
  snd (reduce_length 1 (snd (reduce_length 1 vicuna_two_exchanges)))
  = snd (reduce_length 1 vicuna_two_exchanges).
Proof.
  refine (proj1 (reduce_length_idempotent 1 vicuna_two_exchanges _)). lia.
Defined.

(** X21: a negative [conv] is not rejected.  The slice start turns
    positive, and the call keeps the first element and drops the
    [-conv*2] elements that follow it, the oldest turns, whatever the
    length. *)
Theorem reduce_length_negative (conv : Z) (o : PromptGenerator) :
  (conv < 0)%Z ->
  conversation (snd (reduce_length conv o))
  = (take 1 (conversation o) ++ drop (1 + Z.to_nat (- conv * 2)) (conversation o))%list.
Proof.
  intros Hk. simpl. rewrite reduced_nonpositive by lia. do 2 f_equal. lia.
Qed.

Lemma reduce_length_negative_witness :
  conversation (snd (reduce_length (-1) vicuna_two_exchanges))
  = [TStr ("You are helpful." ++ LF);
     TStr ("USER: More" ++ LF ++ "ASSISTANT:");
     TStr " Sure.</s>"].
Proof.
  refine (reduce_length_negative (-1) vicuna_two_exchanges _). lia.
Defined.

(** X22: whatever the argument, [reduce_length] keeps the first element
    first and stores no element that was not in the conversation; for
    [conv >= 1] the result has at most [conv*2] elements. *)
Theorem reduce_length_bounds (conv : Z) (o : PromptGenerator) :
  let l := conversation o in
  let l' := conversation (snd (reduce_length conv o)) in
  head l' = head l /\
  (forall x, In x l' -> In x l) /\
  ((1 <= conv)%Z -> length l' <= Z.to_nat (conv * 2)).
Proof.
  cbv zeta. simpl. split; [|split].
  - destruct (reduced_shape conv (conversation o)) as [m ->].
    destruct (conversation o); [simpl; now rewrite drop_nil | reflexivity].
  - intros x. destruct (reduced_shape conv (conversation o)) as [m ->].
    rewrite in_app_iff. intros [H|H]; [exact (In_take x _ _ H) | exact (In_drop x _ _ H)].
  - apply reduced_length_bound.
Qed.

(** ** One-shot prompts *)

Ltac reads_only_step :=
  first
    [ apply reads_only_bind; [|intros ?]
    | apply reads_only_ret | apply reads_only_read
    | apply reads_only_attr | apply reads_only_lift
    | match goal with
      | |- reads_only (if ?b then _ else _) => destruct b
      end ].

Section OneShotMore.

Lemma truthy_nonempty (s : string) : s <> "" -> PyStr.truthy s = true.
Proof. destruct s; [contradiction | reflexivity]. Qed.

(** The part of [generate_one_shot_prompt] after the assignment. *)
Lemma one_shot_effect (user_prompt preprompt system_prompt input : string)
      (o : PromptGenerator) :
  snd (generate_one_shot_prompt user_prompt preprompt system_prompt input o)
  = if PyStr.truthy system_prompt
    then set_system_text (PyStr.strip system_prompt) o
    else o.
Proof.
  unfold generate_one_shot_prompt.
  match goal with
  | |- snd (bind ?m ?k o) = _ =>
      assert (reads_only (k tt)) as Hk by (repeat reads_only_step)
  end.
  destruct (PyStr.truthy system_prompt); unfold bind at 1; simpl; apply Hk.
Qed.

End OneShotMore.

(** X23: [generate_one_shot_prompt] never touches the conversation, the
    sub-templates or the bound name.  Its only effect is on [system_text]:
    a non-empty [system_prompt] is stored there, stripped, and it stays
    stored when the call then raises; with an empty [system_prompt] the
    object is left exactly as it was. *)
Theorem generate_one_shot_prompt_effect
        (user_prompt preprompt system_prompt input : string) (o : PromptGenerator) :
  snd (generate_one_shot_prompt user_prompt preprompt system_prompt input o)
  = if PyStr.truthy system_prompt
    then set_system_text (PyStr.strip system_prompt) o
    else o.
Proof. exact (one_shot_effect user_prompt preprompt system_prompt input o). Qed.

Lemma one_shot_system_prompt_stored
      (user_prompt preprompt system_prompt input : string) (o : PromptGenerator) :
  system_prompt <> "" ->
  fst (generate_one_shot_prompt user_prompt preprompt system_prompt input o)
  = fst (generate_one_shot_prompt user_prompt preprompt "" input
           (set_system_text system_prompt o)).
Proof.
  intros Hsp. unfold generate_one_shot_prompt.
  rewrite (truthy_nonempty _ Hsp). simpl PyStr.truthy.
  unfold bind, assign, ret, read, attr, lift.
  cbn [set_system_text system_text model_name fst snd].
  destruct (String.eqb (model_name o) "alpaca" && PyStr.truthy input); cbv beta;
    cbn [set_system_text system_text system_prompt_helper user_prompt_helper
         input_prompt_helper];
    (destruct (system_prompt_helper o); [|reflexivity]);
    cbn [set_system_text system_text system_prompt_helper user_prompt_helper
         input_prompt_helper];
    rewrite strip_idempotent;
    (destruct (PyFormat.format _ _); [|reflexivity]).
  - destruct (input_prompt_helper o); [|reflexivity].
    now destruct (PyFormat.format _ _).
  - destruct (user_prompt_helper o); [|reflexivity].
    now destruct (PyFormat.format _ _).
Qed.

(** With the three sub-templates it reads in place, the one-shot prompt
    is one of the two renderings, on the system text in force. *)
Lemma one_shot_result (user_prompt preprompt system_prompt input hs hu hi : string)
      (o : PromptGenerator) :
  system_prompt_helper o = Some hs ->
  user_prompt_helper o = Some hu ->
  input_prompt_helper o = Some hi ->
  fst (generate_one_shot_prompt user_prompt preprompt system_prompt input o)
  = let st := if PyStr.truthy system_prompt then system_prompt else system_text o in
    if String.eqb (model_name o) "alpaca" && PyStr.truthy input
    then one_shot_with hi [("prompt", combined preprompt user_prompt);
                           ("input", PyStr.strip input)] hs st
    else one_shot_with hu [("prompt", combined preprompt user_prompt)] hs st.
Proof.
  intros Hs Hu Hi. destruct system_prompt as [|c sp].
  - exact (one_shot_by_model_name o user_prompt preprompt input hs hu hi Hs Hu Hi).
  - rewrite one_shot_system_prompt_stored by discriminate.
    exact (one_shot_by_model_name (set_system_text (String c sp) o)
             user_prompt preprompt input hs hu hi Hs Hu Hi).
Qed.

(** X24: giving a non-empty [system_prompt] to [generate_one_shot_prompt]
    returns what the call without it returns once that text has been
    stored as [system_text]: the text is stripped either way. *)
Theorem one_shot_system_prompt_argument
        (user_prompt preprompt system_prompt input : string) (o : PromptGenerator) :
  system_prompt <> "" ->
  fst (generate_one_shot_prompt user_prompt preprompt system_prompt input o)
  = fst (generate_one_shot_prompt user_prompt preprompt "" input
           (set_system_text system_prompt o)).
Proof. exact (one_shot_system_prompt_stored user_prompt preprompt system_prompt input o). Qed.

Lemma one_shot_system_prompt_argument_witness :
  fst (generate_one_shot_prompt "Hi" "" "  Be terse. " "" vicuna_started)
  = Ok ("Be terse." ++ LF ++ "USER: Hi" ++ LF ++ "ASSISTANT:").
Proof.
  rewrite (one_shot_system_prompt_argument "Hi" "" "  Be terse. " "" vicuna_started);
    [reflexivity | discriminate].
Defined.

(** ** Keywords that are not passed *)

Section MissingInput.

Lemma format_input_field_missing (a t c : string) :
  brace_free a = true ->
  PyFormat.format (a ++ "{input}" ++ t) [("prompt", c)] = Raise (KeyError "input").
Proof. intros Ha. now rewrite (format_literal _ _ _ Ha). Qed.

Lemma format_prompt_then_input_missing (a1 a2 t c : string) :
  brace_free a1 = true -> brace_free a2 = true ->
  PyFormat.format (a1 ++ "{prompt}" ++ a2 ++ "{input}" ++ t) [("prompt", c)]
  = Raise (KeyError "input").
Proof.
  intros H1 H2.
  rewrite (format_literal _ _ _ H1), format_prompt_field.
  now rewrite (format_input_field_missing a2 t c H2).
Qed.

Lemma format_input_field (kw : PyFormat.kwargs) (c v t : string) :
  PyFormat.format ("{input}" ++ t) (("prompt", c) :: ("input", v) :: kw)
  = result_map (String.append v)
      (PyFormat.format t (("prompt", c) :: ("input", v) :: kw)).
Proof. reflexivity. Qed.

Lemma format_prompt_then_input (a1 a2 t c v : string) :
  brace_free a1 = true -> brace_free a2 = true -> brace_free t = true ->
  PyFormat.format (a1 ++ "{prompt}" ++ a2 ++ "{input}" ++ t)
                  [("prompt", c); ("input", v)]
  = Ok (a1 ++ c ++ a2 ++ v ++ t).
Proof.
  intros H1 H2 Ht.
  rewrite (format_literal _ _ _ H1), format_prompt_field.
  rewrite (format_literal _ _ _ H2), format_input_field.
  now rewrite (format_literal_only _ _ Ht).
Qed.

End MissingInput.

(** X25: under the name "alpaca", a user turn with a non-empty [input]
    always fails when the input sub-template has an [{input}] field after
    its [{prompt}] field: only [prompt] is passed to [format], which raises
    [KeyError] for "input", and nothing is appended. *)
Theorem alpaca_input_turn_raises
        (o : PromptGenerator) (a1 a2 t text preprompt input : string) :
  bound_to "alpaca" o ->
  input_prompt_helper o = Some (a1 ++ "{prompt}" ++ a2 ++ "{input}" ++ t) ->
  brace_free a1 = true -> brace_free a2 = true ->
  input <> "" ->
  add_to_conversation "user" text preprompt input o = (Raise (KeyError "input"), o).
Proof.
  intros [Hn Hl] Hh H1 H2 Hi.
  rewrite (add_user_alpaca_input o "user" text preprompt input eq_refl eq_refl _
             (or_intror Hl) Hn (truthy_nonempty _ Hi) Hh).
  unfold append_rendered. now rewrite (format_prompt_then_input_missing _ _ _ _ H1 H2).
Qed.

Lemma alpaca_input_turn_raises_witness :
  add_to_conversation "user" "Translate" "" "bonjour" alpaca_with_alpaca
  = (Raise (KeyError "input"), alpaca_with_alpaca).
Proof.
  apply (alpaca_input_turn_raises alpaca_with_alpaca
           ("### Instruction:" ++ LF) (LF ++ LF ++ "### Input:" ++ LF)
           (LF ++ LF ++ "### Response:" ++ LF));
    try reflexivity; try discriminate.
  split; reflexivity.
Defined.

(** X26: the llama-2 rule for the first user turn passes [prompt] alone.
    With a user sub-template that has an [{input}] field after its
    [{prompt}] field, the user turn added at conversation length 1 raises
    [KeyError] for "input", whatever [input] is, while the same call at any
    other length renders the field with the stripped [input]. *)
Theorem llama2_first_turn_drops_input
        (o : PromptGenerator) (a1 a2 t text preprompt input : string) :
  bound_to "llama-2-chat" o ->
  user_prompt_helper o = Some (a1 ++ "{prompt}" ++ a2 ++ "{input}" ++ t) ->
  brace_free a1 = true -> brace_free a2 = true -> brace_free t = true ->
  (length (conversation o) = 1 ->
   add_to_conversation "user" text preprompt input o = (Raise (KeyError "input"), o)) /\
  (length (conversation o) <> 1 ->
   add_to_conversation "user" text preprompt input o
   = (Ok tt, appended (TStr (a1 ++ combined preprompt text ++ a2
                             ++ PyStr.strip input ++ t)) o)).
Proof.
  intros Hb Hu H1 H2 Ht. split; intros Hlen.
  - rewrite (add_user_first_llama o "user" text preprompt input eq_refl eq_refl _
               Hlen (llama2_flag_on o Hb) Hu).
    unfold append_rendered.
    now rewrite (format_prompt_then_input_missing _ _ _ _ H1 H2).
  - rewrite (llama2_later_turn o _ "user" text preprompt input Hb Hu eq_refl eq_refl Hlen).
    unfold append_rendered.
    now rewrite (format_prompt_then_input _ _ _ _ _ H1 H2 Ht).
Qed.

Lemma llama2_first_turn_drops_input_witness :
  let o := snd (custom_template llama2_system llama2_response
                  " [INST] {prompt} ({input}) [/INST]" "" llama2_started) in
  add_to_conversation "user" "Hi" "" "ctx" o = (Raise (KeyError "input"), o).
Proof.
  cbv zeta.
  refine (proj1 (llama2_first_turn_drops_input _ " [INST] " " (" ") [/INST]"
                   "Hi" "" "ctx" _ _ _ _ _) _); try reflexivity.
  split; reflexivity.
Defined.

(** ** Custom sub-templates after a selection *)

(** X27: [custom_template] replaces the four sub-templates and keeps the
    bound name and the llama-2 flag.  After "llama-2-chat" was selected,
    the first user turn rendered by a custom user sub-template still has
    every [" \[INST\]"] removed. *)
Theorem custom_template_keeps_llama_rule
        (o : PromptGenerator) (s rs u i text preprompt r : string) :
  bound_to "llama-2-chat" o ->
  length (conversation o) = 1 ->
  PyFormat.format u [("prompt", combined preprompt text)] = Ok r ->
  let o' := snd (custom_template s rs u i o) in
  add_to_conversation "user" text preprompt "" o'
  = (Ok tt, appended (TStr (PyStr.replace r " [INST]" "")) o').
Proof.
  intros Hb Hlen Hr. cbv zeta.
  rewrite (add_user_first_llama (snd (custom_template s rs u i o)) "user" text preprompt ""
             eq_refl eq_refl u Hlen (llama2_flag_on o Hb) eq_refl).
  unfold append_rendered. now rewrite Hr.
Qed.

Lemma custom_template_keeps_llama_rule_witness :
  let o' := snd (custom_template "{system}" "{response}" "Q: [INST] {prompt}" ""
                   llama2_started) in
  add_to_conversation "user" "Hi" "" "" o' = (Ok tt, appended (TStr "Q: Hi") o').
Proof.
  cbv zeta.
  apply (custom_template_keeps_llama_rule llama2_started "{system}" "{response}"
           "Q: [INST] {prompt}" "" "Hi" "" "Q: [INST] Hi"); try reflexivity.
  split; reflexivity.
Defined.

(** ** Counting, and objects without a selected template *)

(** X28: [len] counts the turns: after a user or model turn it is one
    more than before when the call returned, and the same when it
    raised. *)
Theorem len_counts_turns (role text preprompt input : string) (o : PromptGenerator) :
  PyStr.lower role = "user" \/ PyStr.lower role = "model" ->
  fst (len (snd (add_to_conversation role text preprompt input o)))
  = Ok (match fst (add_to_conversation role text preprompt input o) with
        | Ok _ => S (length (conversation o))
        | Raise _ => length (conversation o)
        end).
Proof.
  intros Hrole.
  destruct (add_turn_appends_or_raises role text preprompt input o Hrole)
    as [[x ->] | [e ->]]; simpl; [|reflexivity].
  rewrite length_app. simpl. f_equal. lia.
Qed.

Lemma len_counts_turns_witness :
  fst (len (snd (add_to_conversation "user" "Hi" "" "" vicuna_started))) = Ok 2.
Proof.
  exact (len_counts_turns "user" "Hi" "" "" vicuna_started (or_introl eq_refl)).
Defined.

(** X29: [generate_one_shot_prompt] needs the sub-templates only.  After
    [custom_template] on a freshly built object, with no template ever
    selected, it renders the system sub-template on the stripped
    [system_prompt] (empty when none is given: no error is raised for a
    missing system prompt), followed by the input sub-template when the
    model name is "alpaca" and [input] is non-empty, by the user
    sub-template otherwise. *)
Theorem one_shot_after_custom_template
        (name s r u i user_prompt preprompt system_prompt input : string)
        (store : gmap string (gmap string string)) :
  fst (generate_one_shot_prompt user_prompt preprompt system_prompt input
         (snd (custom_template s r u i (init name store))))
  = if String.eqb name "alpaca" && PyStr.truthy input
    then one_shot_with i [("prompt", combined preprompt user_prompt);
                          ("input", PyStr.strip input)] s system_prompt
    else one_shot_with u [("prompt", combined preprompt user_prompt)] s system_prompt.
Proof.
  rewrite (one_shot_result user_prompt preprompt system_prompt input s u i
             (snd (custom_template s r u i (init name store))) eq_refl eq_refl eq_refl).
  cbv zeta. simpl model_name. simpl system_text.
  now destruct system_prompt.
Qed.

(** X30: on a freshly built object, before any template is selected,
    [set_system_prompt], [add_to_conversation] with a user or model role
    and [generate_prompt] raise [AttributeError] for [template_name], and
    [generate_one_shot_prompt] raises it for [system_prompt_helper];
    [clear_conversation] and [reduce_length] return and leave the object
    as built, and [len] is [0]. *)
Theorem fresh_object_needs_template
        (name text preprompt system_prompt input : string) (conv : Z)
        (store : gmap string (gmap string string)) :
  let o := init name store in
  fst (set_system_prompt text o) = Raise (AttributeError "template_name") /\
  fst (add_to_conversation "user" text preprompt "" o)
  = Raise (AttributeError "template_name") /\
  fst (add_to_conversation "model" text preprompt "" o)
  = Raise (AttributeError "template_name") /\
  fst (generate_prompt o) = Raise (AttributeError "template_name") /\
  fst (generate_one_shot_prompt text preprompt system_prompt input o)
  = Raise (AttributeError "system_prompt_helper") /\
  clear_conversation o = (Ok tt, o) /\
  reduce_length conv o = (Ok tt, o) /\
  fst (len o) = Ok 0.
Proof.
  cbv zeta. repeat split.
  - unfold generate_one_shot_prompt. run_method.
    destruct (PyStr.truthy system_prompt); simpl;
      now destruct (String.eqb name "alpaca" && PyStr.truthy input).
  - rewrite reduce_length_stores. simpl conversation.
    destruct (reduced_shape conv []) as [m ->]. simpl. now rewrite drop_nil.
Qed.
